(** * Verification of the training driver [train.py]

    A shallow embedding of [Trainer.train_and_evaluate] and of its two helper
    methods [write_metrics] and [compare_predictions].

    The driver is bookkeeping around black boxes (network, losses, metric
    evaluator, validation routine, clock).  What those return at a given
    epoch and batch is supplied by a [World]; what the driver does to the
    outside (optimizer steps, tracking-backend calls, checkpoint calls,
    console lines) is recorded, in order, in an event log carried by the
    state.  Python floats are idealised as rationals ([Q]); Python integers
    are [Z].  Exceptions are modelled: an exception leaves the state (and
    the events emitted so far) as they were when it was raised. *)

From Stdlib Require Import ZArith QArith Qminmax List String Ascii Bool.
From Stdlib Require Import Lia Sorted Qpower.
Import ListNotations.

Open Scope Z_scope.

(** ** Exceptions and the driver's monad *)

Inductive Exn : Type :=
| ZeroDivisionError
| TypeError
| EmptyAccumulator.

Inductive Outcome (A : Type) : Type :=
| Ok (a : A)
| Raise (e : Exn).

Arguments Ok {A} a.
Arguments Raise {A} e.

(** ** Running averages

    [RunningAverage] comes from the repository's [utils] module. *)

Module RunningAverage.

Record t : Type := Build { total : Q; count : Z }.

(** Modelled from the spec: the class [RunningAverage] of [utils], which
    is not part of the available sources.  "Mutable accumulator holding
    (sum, count)"; a new instance is empty. *)
Definition init : t := {| total := 0%Q; count := 0 |}.

(** Modelled from the spec: the method [RunningAverage.update(value,
    weight=1)] of [utils]; after a sequence of updates the accumulator
    holds the weighted sum of the values and the sum of the weights. *)
Definition update (a : t) (value : Q) (weight : Z) : t :=
  {| total := (total a + value * inject_Z weight)%Q;
     count := count a + weight |}.

(** Modelled from the spec: the read [RunningAverage.__call__] of [utils]:
    "returns sum/count", and reading an accumulator whose count is zero
    "fails with a defined empty accumulator condition". *)
Definition read (a : t) : Outcome Q :=
  if count a =? 0 then Raise EmptyAccumulator
  else Ok (total a / inject_Z (count a))%Q.

(** A sequence of [update] calls, oldest first. *)
Definition updates (a : t) (calls : list (Q * Z)) : t :=
  fold_left (fun acc c => update acc (fst c) (snd c)) calls a.

(** The two sums of the specification, written independently of [update]. *)
Fixpoint weighted_sum (calls : list (Q * Z)) : Q :=
  match calls with
  | [] => 0%Q
  | (v, w) :: rest => (v * inject_Z w + weighted_sum rest)%Q
  end.

Fixpoint weight_sum (calls : list (Q * Z)) : Z :=
  match calls with
  | [] => 0
  | (_, w) :: rest => w + weight_sum rest
  end.

End RunningAverage.

(** ** The driver's monad: state, event log, exceptions *)

Definition M (S A : Type) : Type := S -> Outcome A * S.

Definition ret {S A : Type} (a : A) : M S A := fun s => (Ok a, s).

Definition bind {S A B : Type} (m : M S A) (k : A -> M S B) : M S B :=
  fun s =>
    match m s with
    | (Ok a, s') => k a s'
    | (Raise e, s') => (Raise e, s')
    end.

Definition lift {S A : Type} (r : Outcome A) : M S A := fun s => (r, s).

Definition gets {S A : Type} (f : S -> A) : M S A := fun s => (Ok (f s), s).

Definition modify {S : Type} (f : S -> S) : M S unit := fun s => (Ok tt, f s).

Notation "x <- c1 ;; c2" := (bind c1 (fun x => c2))
  (at level 61, c1 at next level, right associativity).
Notation "c1 ;; c2" := (bind c1 (fun _ => c2))
  (at level 61, right associativity).

(** [for x in xs: body(x)] *)
Fixpoint for_ {S A : Type} (xs : list A) (body : A -> M S unit) : M S unit :=
  match xs with
  | [] => ret tt
  | x :: rest => body x ;; for_ rest body
  end.

(** [range(n)] and [range(a, b)] on Python integers. *)
Definition py_range2 (a b : Z) : list Z :=
  map (fun k => a + Z.of_nat k) (seq 0 (Z.to_nat (b - a))).

Definition py_range (n : Z) : list Z := py_range2 0 n.

(** [a % b] on Python integers: the result takes the sign of the divisor, as
    [Z.modulo] does, and a zero divisor raises. *)
Definition py_mod (a b : Z) : Outcome Z :=
  if b =? 0 then Raise ZeroDivisionError else Ok (a mod b).

(** [int(x)] on a float: truncation towards zero. *)
Definition py_int (x : Q) : Z := Z.quot (Qnum x) (Z.pos (Qden x)).

(** [x < y] on floats. *)
Definition Qltb (x y : Q) : bool := negb (Qle_bool y x).

(** The number of conversion specifiers of a [%]-format string ([%%] is a
    literal percent sign).  The driver's format strings use [%d], [%f] and
    [%s] only, so a specifier is a percent sign and the character after it. *)
Fixpoint conversions (fmt : string) : nat :=
  match fmt with
  | EmptyString => 0%nat
  | String c rest =>
      if Ascii.eqb c "%"%char then
        match rest with
        | EmptyString => 1%nat
        | String d rest' =>
            if Ascii.eqb d "%"%char then conversions rest'
            else S (conversions rest')
        end
      else conversions rest
  end.

(** [fmt % (a1, ..., an)]: the tuple must supply exactly as many values as
    the string has conversion specifiers, otherwise [TypeError] ("not all
    arguments converted during string formatting" / "not enough arguments
    for format string"). *)
Definition percent_format (fmt : string) (nargs : nat) : Outcome unit :=
  if Nat.eqb (conversions fmt) nargs then Ok tt else Raise TypeError.

(** ** The learning-rate schedule

    [torch.optim.lr_scheduler.StepLR] is PyTorch's; this is its documented
    behaviour: the constructor leaves the optimizer's learning rate at its
    base value with [last_epoch = 0], and every [step()] advances
    [last_epoch] and multiplies the rate by [gamma] when the new
    [last_epoch] is a multiple of [step_size]. *)

Module StepLR.

Record t : Type :=
  Build { step_size : Z; gamma : Q; last_epoch : Z; current_lr : Q }.

Definition make (base_lr : Q) (step_size : Z) (gamma : Q) : t :=
  {| step_size := step_size; gamma := gamma;
     last_epoch := 0; current_lr := base_lr |}.

Definition step (s : t) : Outcome t :=
  let e := last_epoch s + 1 in
  let keep := {| step_size := step_size s; gamma := gamma s;
                 last_epoch := e; current_lr := current_lr s |} in
  if e =? 0 then Ok keep
  else
    match py_mod e (step_size s) with
    | Raise x => Raise x
    | Ok r =>
        if negb (r =? 0) then Ok keep
        else Ok {| step_size := step_size s; gamma := gamma s;
                   last_epoch := e;
                   current_lr := (current_lr s * gamma s)%Q |}
    end.


End StepLR.

(** ** Configuration and the black boxes *)

Record Config : Type := {
  batch_size : Z;
  lr : Q;
  lr_scheduler_step_size : Z;
  start_epoch : Z;
  epochs : Z;
  training_loss_log_interval : Z;
  other_metrics_log_interval : Z;
  test_batch_size : Z
}.

(** The mapping returned by [evaluate_predictions] and by [evaluate]: it
    always has an ["rmse"] entry. *)
Record Metrics : Type := { rmse : Q; other_metrics : list (string * Q) }.

Definition items (m : Metrics) : list (string * Q) :=
  ("rmse"%string, rmse m) :: other_metrics m.

(** What the black boxes return while one batch is processed:
    [images.shape[0]], the two losses, [time_end - time_start], and -- used
    only when the metrics block runs -- the training metrics and the result
    of the validation pass. *)
Record BatchObs : Type := {
  batch_n : nat;
  per_pixel_loss : Q;
  feature_loss : Q;
  it_time : Q;
  metrics : Metrics;
  test_loss : Q;
  test_metrics : Metrics
}.

(** [len(train_dataloader)] and the observations at each epoch and batch. *)
Record World : Type := {
  num_batches : nat;
  observe : Z -> nat -> BatchObs
}.

(** ** Events *)

Inductive LogValue : Type :=
| Scalar (v : Q)
| ImageGrid.

Inductive ConsoleLine : Type :=
| Timestamp
| LossLine (epoch : Z) (iteration : nat) (per_pixel feature : Q)
| ProgressLine (epoch : Z) (iteration : nat) (it_time avg : Q) (eta : option Z)
| EpochComplete (epoch : Z).

Inductive Event : Type :=
| LoadCheckpoint
| Forward (epoch : Z) (iteration : nat)
| Backward (epoch : Z) (iteration : nat)
| OptimizerStep (epoch : Z) (iteration : nat)
| Print (line : ConsoleLine)
| WandbLog (key : string) (value : LogValue) (step : Z)
| SummarySet (key : string) (value : Q)
| EvaluatePredictions (m : Metrics)
| Evaluate (batch : Z) (loss : Q) (m : Metrics)
| SaveCheckpoint (iteration : Z) (is_best train : bool)
| LrSchedulerStep
| EmptyCache
| SaveEpoch (epoch_index : Z).

(** ** The driver's local variables *)

Record State : Type := {
  best_rmse : Q;
  is_best : bool;
  best_test_rmse : Q;
  lr_scheduler : StepLR.t;
  wandb_step : Z;
  accumulated_per_pixel_loss : RunningAverage.t;
  accumulated_feature_loss : RunningAverage.t;
  accumulated_iteration_time : RunningAverage.t;
  eta : option Z;
  events : list Event   (* newest first *)
}.

(** The events in the order they happened. *)
Definition history (s : State) : list Event := rev (events s).

Definition set_best_rmse (v : Q) (s : State) : State :=
  {| best_rmse := v; is_best := is_best s;
     best_test_rmse := best_test_rmse s; lr_scheduler := lr_scheduler s;
     wandb_step := wandb_step s;
     accumulated_per_pixel_loss := accumulated_per_pixel_loss s;
     accumulated_feature_loss := accumulated_feature_loss s;
     accumulated_iteration_time := accumulated_iteration_time s;
     eta := eta s; events := events s |}.

Definition set_is_best (v : bool) (s : State) : State :=
  {| best_rmse := best_rmse s; is_best := v;
     best_test_rmse := best_test_rmse s; lr_scheduler := lr_scheduler s;
     wandb_step := wandb_step s;
     accumulated_per_pixel_loss := accumulated_per_pixel_loss s;
     accumulated_feature_loss := accumulated_feature_loss s;
     accumulated_iteration_time := accumulated_iteration_time s;
     eta := eta s; events := events s |}.

Definition set_best_test_rmse (v : Q) (s : State) : State :=
  {| best_rmse := best_rmse s; is_best := is_best s;
     best_test_rmse := v; lr_scheduler := lr_scheduler s;
     wandb_step := wandb_step s;
     accumulated_per_pixel_loss := accumulated_per_pixel_loss s;
     accumulated_feature_loss := accumulated_feature_loss s;
     accumulated_iteration_time := accumulated_iteration_time s;
     eta := eta s; events := events s |}.

Definition set_lr_scheduler (v : StepLR.t) (s : State) : State :=
  {| best_rmse := best_rmse s; is_best := is_best s;
     best_test_rmse := best_test_rmse s; lr_scheduler := v;
     wandb_step := wandb_step s;
     accumulated_per_pixel_loss := accumulated_per_pixel_loss s;
     accumulated_feature_loss := accumulated_feature_loss s;
     accumulated_iteration_time := accumulated_iteration_time s;
     eta := eta s; events := events s |}.

Definition set_wandb_step (v : Z) (s : State) : State :=
  {| best_rmse := best_rmse s; is_best := is_best s;
     best_test_rmse := best_test_rmse s; lr_scheduler := lr_scheduler s;
     wandb_step := v;
     accumulated_per_pixel_loss := accumulated_per_pixel_loss s;
     accumulated_feature_loss := accumulated_feature_loss s;
     accumulated_iteration_time := accumulated_iteration_time s;
     eta := eta s; events := events s |}.

Definition set_accumulated_per_pixel_loss (v : RunningAverage.t) (s : State)
  : State :=
  {| best_rmse := best_rmse s; is_best := is_best s;
     best_test_rmse := best_test_rmse s; lr_scheduler := lr_scheduler s;
     wandb_step := wandb_step s;
     accumulated_per_pixel_loss := v;
     accumulated_feature_loss := accumulated_feature_loss s;
     accumulated_iteration_time := accumulated_iteration_time s;
     eta := eta s; events := events s |}.

Definition set_accumulated_feature_loss (v : RunningAverage.t) (s : State)
  : State :=
  {| best_rmse := best_rmse s; is_best := is_best s;
     best_test_rmse := best_test_rmse s; lr_scheduler := lr_scheduler s;
     wandb_step := wandb_step s;
     accumulated_per_pixel_loss := accumulated_per_pixel_loss s;
     accumulated_feature_loss := v;
     accumulated_iteration_time := accumulated_iteration_time s;
     eta := eta s; events := events s |}.

Definition set_accumulated_iteration_time (v : RunningAverage.t) (s : State)
  : State :=
  {| best_rmse := best_rmse s; is_best := is_best s;
     best_test_rmse := best_test_rmse s; lr_scheduler := lr_scheduler s;
     wandb_step := wandb_step s;
     accumulated_per_pixel_loss := accumulated_per_pixel_loss s;
     accumulated_feature_loss := accumulated_feature_loss s;
     accumulated_iteration_time := v;
     eta := eta s; events := events s |}.

Definition set_eta (v : option Z) (s : State) : State :=
  {| best_rmse := best_rmse s; is_best := is_best s;
     best_test_rmse := best_test_rmse s; lr_scheduler := lr_scheduler s;
     wandb_step := wandb_step s;
     accumulated_per_pixel_loss := accumulated_per_pixel_loss s;
     accumulated_feature_loss := accumulated_feature_loss s;
     accumulated_iteration_time := accumulated_iteration_time s;
     eta := v; events := events s |}.

Definition record_event (e : Event) (s : State) : State :=
  {| best_rmse := best_rmse s; is_best := is_best s;
     best_test_rmse := best_test_rmse s; lr_scheduler := lr_scheduler s;
     wandb_step := wandb_step s;
     accumulated_per_pixel_loss := accumulated_per_pixel_loss s;
     accumulated_feature_loss := accumulated_feature_loss s;
     accumulated_iteration_time := accumulated_iteration_time s;
     eta := eta s; events := e :: events s |}.

Definition emit (e : Event) : M State unit := modify (record_event e).

(** Reading an accumulator held in a local variable. *)
Definition read_of (f : State -> RunningAverage.t) : M State Q :=
  a <- gets f ;; lift (RunningAverage.read a).

(** ** The driver *)

(** The sentinel [9e20] of lines 44 and 46. *)
Definition sentinel : Q := 900000000000000000000 # 1.

(** The three format strings of the driver's progress lines (lines 99, 105
    and 132), character for character. *)
Definition loss_line_format : string :=
  "At epoch %d[%d/%d]; average per-pixel loss: %f; average feature loss".

Definition progress_line_format : string :=
  "Epoch: %d [%d / %d] ; it_time: %f (%f) ; eta: %s".

Definition epoch_line_format : string :=
  "Epoch %d complete, time taken: %s".

(** [write_metrics(metrics, wandb_step, train)], lines 139-145: one
    [wandb.log] per entry, the key prefixed by the phase. *)
Definition write_metrics (m : Metrics) (step : Z) (train : bool)
  : M State unit :=
  for_ (items m)
    (fun kv =>
       emit (WandbLog
               ((if train then "Train " else "Validation ") ++ fst kv)%string
               (Scalar (snd kv)) step)).

(** [compare_predictions(images, depths, predictions, wandb_step)], lines
    147-161: four image grids, each logged at the given step. *)
Definition compare_predictions (step : Z) : M State unit :=
  emit (WandbLog "Sample Validation images" ImageGrid step) ;;
  emit (WandbLog "Sample Validation depths" ImageGrid step) ;;
  emit (WandbLog "Sample Validation predictions" ImageGrid step) ;;
  emit (WandbLog "Sample Validation differences" ImageGrid step).

(** Lines 113-116: the best training RMSE. *)
Definition track_best_train (m : Metrics) : M State unit :=
  best <- gets best_rmse ;;
  if Qltb (rmse m) best then
    emit (SummarySet "best_train_rmse" (rmse m)) ;;
    modify (set_best_rmse (rmse m)) ;;
    modify (set_is_best true)
  else ret tt.

(** Lines 124-126: the best validation RMSE. *)
Definition track_best_test (m : Metrics) : M State unit :=
  best <- gets best_test_rmse ;;
  if Qltb (rmse m) best then
    emit (SummarySet "best_test_rmse" (rmse m)) ;;
    modify (set_best_test_rmse (rmse m))
  else ret tt.

Section Driver.

(** The format string of the loss line (line 99) is kept as a parameter of
    the loop, so that what is proved of the loop's bookkeeping for every
    format string holds whatever that line does.  The driver itself,
    [train_and_evaluate] below, is the loop at the string of the source,
    [loss_line_format]. *)
Variable loss_fmt : string.
Variable config : Config.
Variable world : World.

(** Lines 44-46, 53, 58, 60-62: the local variables before the loops. *)
Definition initial_state : State :=
  {| best_rmse := sentinel;
     is_best := false;
     best_test_rmse := sentinel;
     lr_scheduler :=
       StepLR.make (lr config) (lr_scheduler_step_size config) (1 # 10);
     wandb_step := start_epoch config * Z.of_nat (num_batches world) - 1;
     accumulated_per_pixel_loss := RunningAverage.init;
     accumulated_feature_loss := RunningAverage.init;
     accumulated_iteration_time := RunningAverage.init;
     eta := None;
     events := [] |}.

(** [lr_scheduler.step()], lines 55 and 133. *)
Definition scheduler_step : M State unit :=
  emit LrSchedulerStep ;;
  s <- gets lr_scheduler ;;
  s' <- lift (StepLR.step s) ;;
  modify (set_lr_scheduler s').

(** Lines 48-55: the optional restore, then one [step()] per epoch already
    done.  [load_checkpoint] belongs to [utils]; it is recorded as an event,
    and the learning rate the schedule is built on (line 53) is taken to be
    [config['lr']], the rate the optimizer was constructed with (line
    39). *)
Definition startup (local : bool) : M State unit :=
  (if local then emit LoadCheckpoint else ret tt) ;;
  for_ (py_range (start_epoch config)) (fun _ => scheduler_step).

(** Lines 67-95: one batch through the network and the optimizer, the
    three accumulators, the ETA. *)
Definition train_step (epoch : Z) (iteration : nat) : M State unit :=
  let o := observe world epoch iteration in
  emit (Forward epoch iteration) ;;
  modify (fun s =>
    set_accumulated_per_pixel_loss
      (RunningAverage.update (accumulated_per_pixel_loss s)
         (per_pixel_loss o) (Z.of_nat (batch_n o))) s) ;;
  modify (fun s =>
    set_accumulated_feature_loss
      (RunningAverage.update (accumulated_feature_loss s)
         (feature_loss o) (Z.of_nat (batch_n o))) s) ;;
  emit (Backward epoch iteration) ;;
  emit (OptimizerStep epoch iteration) ;;
  modify (fun s =>
    set_accumulated_iteration_time
      (RunningAverage.update (accumulated_iteration_time s)
         (it_time o) 1) s) ;;
  avg <- read_of accumulated_iteration_time ;;
  modify (set_eta
    (Some (py_int (avg * inject_Z
                     (Z.of_nat (num_batches world) - Z.of_nat iteration))))).

(** Lines 98-101: the body of the loss-log block.  The tuple of line 99 is
    built first (both accumulators are read), then formatted, then
    printed. *)
Definition loss_log_block (epoch : Z) (iteration : nat) : M State unit :=
  emit (Print Timestamp) ;;
  a <- read_of accumulated_per_pixel_loss ;;
  b <- read_of accumulated_feature_loss ;;
  lift (percent_format loss_fmt 5) ;;
  emit (Print (LossLine epoch iteration a b)) ;;
  step <- gets wandb_step ;;
  a' <- read_of accumulated_per_pixel_loss ;;
  emit (WandbLog "Average per-pixel loss" (Scalar a') step) ;;
  b' <- read_of accumulated_feature_loss ;;
  emit (WandbLog "Average feature loss" (Scalar b') step).

(** Lines 105-128: the body of the metrics block. *)
Definition metrics_log_block (epoch : Z) (iteration : nat) : M State unit :=
  let o := observe world epoch iteration in
  avg <- read_of accumulated_iteration_time ;;
  e <- gets eta ;;
  lift (percent_format progress_line_format 6) ;;
  emit (Print (ProgressLine epoch iteration (it_time o) avg
                 e)) ;;
  step <- gets wandb_step ;;
  emit (EvaluatePredictions (metrics o)) ;;
  write_metrics (metrics o) step true ;;
  emit (Evaluate (test_batch_size config) (test_loss o) (test_metrics o)) ;;
  compare_predictions step ;;
  emit (WandbLog "Average Validation loss on random batch"
          (Scalar (test_loss o)) step) ;;
  write_metrics (test_metrics o) step false ;;
  track_best_train (metrics o) ;;
  flag <- gets is_best ;;
  emit (SaveCheckpoint step flag true) ;;
  track_best_test (test_metrics o) ;;
  modify (set_is_best false).

(** Lines 97 and 103: the two interval tests. *)
Definition loss_log (epoch : Z) (iteration : nat) : M State unit :=
  r <- lift (py_mod (Z.of_nat iteration)
               (training_loss_log_interval config)) ;;
  if r =? 0 then loss_log_block epoch iteration else ret tt.

Definition metrics_log (epoch : Z) (iteration : nat) : M State unit :=
  r <- lift (py_mod (Z.of_nat iteration)
               (other_metrics_log_interval config)) ;;
  if r =? 0 then metrics_log_block epoch iteration else ret tt.

(** Lines 66-128: the body of the batch loop. *)
Definition iteration_body (epoch : Z) (iteration : nat) : M State unit :=
  train_step epoch iteration ;;
  loss_log epoch iteration ;;
  metrics_log epoch iteration.

(** Line 64. *)
Definition epoch_begin : M State unit :=
  modify (fun s => set_wandb_step (wandb_step s + 1) s).

(** Lines 131-137. *)
Definition epoch_end (epoch : Z) : M State unit :=
  lift (percent_format epoch_line_format 2) ;;
  emit (Print (EpochComplete epoch)) ;;
  scheduler_step ;;
  emit EmptyCache ;;
  emit (SaveEpoch epoch).

(** Lines 63-137: the body of the epoch loop. *)
Definition train_epoch (epoch : Z) : M State unit :=
  epoch_begin ;;
  for_ (seq 0 (num_batches world)) (iteration_body epoch) ;;
  epoch_end epoch.

(** Lines 63-137. *)
Definition main_loop : M State unit :=
  for_ (py_range2 (start_epoch config) (epochs config)) train_epoch.

Definition train_and_evaluate_with (local : bool) : Outcome unit * State :=
  (startup local ;; main_loop) initial_state.

End Driver.

(** [Trainer.train_and_evaluate(config, checkpoint_file, local)], lines
    26-137, against a given world: how the call ends and the state it
    leaves. *)
Definition train_and_evaluate (config : Config) (world : World) (local : bool)
  : Outcome unit * State :=
  train_and_evaluate_with loss_line_format config world local.

(** ** The run as a sequence of blocks

    The two nested loops execute, in order, the blocks below.  Running the
    first [k] of them gives the state of the driver at the [k]-th block
    boundary of the run. *)

Inductive Block : Type :=
| EpochBegin
| TrainStep (epoch : Z) (iteration : nat)
| LossLog (epoch : Z) (iteration : nat)
| MetricsLog (epoch : Z) (iteration : nat)
| EpochEnd (epoch : Z).

Definition exec_block (loss_fmt : string) (config : Config) (world : World)
  (b : Block) : M State unit :=
  match b with
  | EpochBegin => epoch_begin
  | TrainStep e i => train_step world e i
  | LossLog e i => loss_log loss_fmt config e i
  | MetricsLog e i => metrics_log config world e i
  | EpochEnd e => epoch_end e
  end.

Definition iteration_blocks (epoch : Z) (iteration : nat) : list Block :=
  [TrainStep epoch iteration; LossLog epoch iteration;
   MetricsLog epoch iteration].

Definition epoch_blocks (world : World) (epoch : Z) : list Block :=
  EpochBegin
    :: flat_map (iteration_blocks epoch) (seq 0 (num_batches world))
    ++ [EpochEnd epoch].

Definition program (config : Config) (world : World) : list Block :=
  flat_map (epoch_blocks world)
    (py_range2 (start_epoch config) (epochs config)).

(** The driver started and then taken through the given blocks. *)
Definition run_blocks (loss_fmt : string) (config : Config) (world : World)
  (local : bool) (bs : list Block) : Outcome unit * State :=
  (startup config local ;; for_ bs (exec_block loss_fmt config world))
    (initial_state config world).

(** The state at the [k]-th block boundary of a run. *)
Definition state_at (loss_fmt : string) (config : Config) (world : World)
  (local : bool) (k : nat) : State :=
  snd (run_blocks loss_fmt config world local
         (firstn k (program config world))).

(** The state in which the first training iteration starts (or in which the
    start-up ended, when it raised). *)
Definition state_before_training (config : Config) (world : World)
  (local : bool) : Outcome unit * State :=
  startup config local (initial_state config world).

(** The loss line with the specifier its last value lacks. *)
Definition completed_loss_line_format : string :=
  (loss_line_format ++ ": %f")%string.

(** ** Reading a history *)

Definition train_rmse_of (e : Event) : list Q :=
  match e with EvaluatePredictions m => [rmse m] | _ => [] end.

Definition test_rmse_of (e : Event) : list Q :=
  match e with Evaluate _ _ m => [rmse m] | _ => [] end.

Definition checkpoint_flag_of (e : Event) : list bool :=
  match e with SaveCheckpoint _ b _ => [b] | _ => [] end.

Definition log_step_of (e : Event) : list Z :=
  match e with WandbLog _ _ st => [st] | _ => [] end.

Definition forward_of (e : Event) : list (Z * nat) :=
  match e with Forward ep it => [(ep, it)] | _ => [] end.

Definition save_epoch_of (e : Event) : list Z :=
  match e with SaveEpoch ep => [ep] | _ => [] end.

(** The training RMSE values computed so far (line 106), oldest first. *)
Definition train_rmse_seen (h : list Event) : list Q :=
  flat_map train_rmse_of h.

(** The validation RMSE values computed so far (line 108). *)
Definition test_rmse_seen (h : list Event) : list Q :=
  flat_map test_rmse_of h.

(** The [is_best] argument of every [save_checkpoint] call so far. *)
Definition checkpoint_flags (h : list Event) : list bool :=
  flat_map checkpoint_flag_of h.

(** The [step] argument of every [wandb.log] call so far. *)
Definition log_steps (h : list Event) : list Z := flat_map log_step_of h.

(** The batches that went through the network so far. *)
Definition forwards (h : list Event) : list (Z * nat) :=
  flat_map forward_of h.

Definition is_forward (e : Event) : bool :=
  match e with Forward _ _ => true | _ => false end.
Definition is_backward (e : Event) : bool :=
  match e with Backward _ _ => true | _ => false end.
Definition is_optimizer_step (e : Event) : bool :=
  match e with OptimizerStep _ _ => true | _ => false end.
Definition is_scheduler_step (e : Event) : bool :=
  match e with LrSchedulerStep => true | _ => false end.
Definition is_wandb_log (e : Event) : bool :=
  match e with WandbLog _ _ _ => true | _ => false end.
Definition is_save_checkpoint (e : Event) : bool :=
  match e with SaveCheckpoint _ _ _ => true | _ => false end.
Definition is_evaluate (e : Event) : bool :=
  match e with Evaluate _ _ _ => true | _ => false end.
Definition is_log_of (key : string) (e : Event) : bool :=
  match e with WandbLog k _ _ => String.eqb k key | _ => false end.

Definition count_events (p : Event -> bool) (h : list Event) : nat :=
  List.length (filter p h).

(** ** Specification-side notions *)

(** The least of [start] and the values of [rs]. *)
Definition running_min (start : Q) (rs : list Q) : Q :=
  fold_left Qmin rs start.


(** For each value of [rs]: is it strictly below [best] and every earlier
    value? *)
Fixpoint new_minimum_flags (best : Q) (rs : list Q) : list bool :=
  match rs with
  | [] => []
  | r :: rest => Qltb r best :: new_minimum_flags (Qmin best r) rest
  end.

(** The [update] calls the driver makes on its three accumulators for the
    batches of a history. *)
Definition per_pixel_calls (world : World) (h : list Event) : list (Q * Z) :=
  map (fun p => let o := observe world (fst p) (snd p) in
                (per_pixel_loss o, Z.of_nat (batch_n o))) (forwards h).

Definition feature_calls (world : World) (h : list Event) : list (Q * Z) :=
  map (fun p => let o := observe world (fst p) (snd p) in
                (feature_loss o, Z.of_nat (batch_n o))) (forwards h).

Definition time_calls (world : World) (h : list Event) : list (Q * Z) :=
  map (fun p => (it_time (observe world (fst p) (snd p)), 1)) (forwards h).

(** ** What the blocks do, in closed form *)

(** The state with the given events (oldest first) added to its log. *)
Definition add_events (es : list Event) (s : State) : State :=
  {| best_rmse := best_rmse s; is_best := is_best s;
     best_test_rmse := best_test_rmse s; lr_scheduler := lr_scheduler s;
     wandb_step := wandb_step s;
     accumulated_per_pixel_loss := accumulated_per_pixel_loss s;
     accumulated_feature_loss := accumulated_feature_loss s;
     accumulated_iteration_time := accumulated_iteration_time s;
     eta := eta s; events := rev es ++ events s |}.

Definition metrics_log_entries (m : Metrics) (step : Z) (train : bool)
  : list Event :=
  map (fun kv =>
         WandbLog ((if train then "Train " else "Validation ") ++ fst kv)%string
           (Scalar (snd kv)) step) (items m).

Definition comparison_entries (step : Z) : list Event :=
  [WandbLog "Sample Validation images" ImageGrid step;
   WandbLog "Sample Validation depths" ImageGrid step;
   WandbLog "Sample Validation predictions" ImageGrid step;
   WandbLog "Sample Validation differences" ImageGrid step].

(** The events of one metrics block entered in state [s], once the running
    average [avg] of the iteration time has been read. *)
Definition metrics_block_events (config : Config) (o : BatchObs)
  (epoch : Z) (iteration : nat) (s : State) (avg : Q) : list Event :=
  let step := wandb_step s in
  [Print (ProgressLine epoch iteration (it_time o) avg (eta s));
   EvaluatePredictions (metrics o)]
  ++ metrics_log_entries (metrics o) step true
  ++ [Evaluate (test_batch_size config) (test_loss o) (test_metrics o)]
  ++ comparison_entries step
  ++ [WandbLog "Average Validation loss on random batch"
        (Scalar (test_loss o)) step]
  ++ metrics_log_entries (test_metrics o) step false
  ++ (if Qltb (rmse (metrics o)) (best_rmse s)
      then [SummarySet "best_train_rmse" (rmse (metrics o))] else [])
  ++ [SaveCheckpoint step
        (if Qltb (rmse (metrics o)) (best_rmse s) then true else is_best s)
        true]
  ++ (if Qltb (rmse (test_metrics o)) (best_test_rmse s)
      then [SummarySet "best_test_rmse" (rmse (test_metrics o))] else []).

Definition metrics_block_state (config : Config) (o : BatchObs)
  (epoch : Z) (iteration : nat) (s : State) (avg : Q) : State :=
  {| best_rmse :=
       if Qltb (rmse (metrics o)) (best_rmse s)
       then rmse (metrics o) else best_rmse s;
     is_best := false;
     best_test_rmse :=
       if Qltb (rmse (test_metrics o)) (best_test_rmse s)
       then rmse (test_metrics o) else best_test_rmse s;
     lr_scheduler := lr_scheduler s;
     wandb_step := wandb_step s;
     accumulated_per_pixel_loss := accumulated_per_pixel_loss s;
     accumulated_feature_loss := accumulated_feature_loss s;
     accumulated_iteration_time := accumulated_iteration_time s;
     eta := eta s;
     events :=
       rev (metrics_block_events config o epoch iteration s avg)
       ++ events s |}.

(** The state a training step leaves before it reads the running average of
    the iteration time. *)
Definition train_step_state (o : BatchObs) (epoch : Z) (iteration : nat)
  (s : State) : State :=
  {| best_rmse := best_rmse s; is_best := is_best s;
     best_test_rmse := best_test_rmse s; lr_scheduler := lr_scheduler s;
     wandb_step := wandb_step s;
     accumulated_per_pixel_loss :=
       RunningAverage.update (accumulated_per_pixel_loss s)
         (per_pixel_loss o) (Z.of_nat (batch_n o));
     accumulated_feature_loss :=
       RunningAverage.update (accumulated_feature_loss s)
         (feature_loss o) (Z.of_nat (batch_n o));
     accumulated_iteration_time :=
       RunningAverage.update (accumulated_iteration_time s) (it_time o) 1;
     eta := eta s;
     events :=
       OptimizerStep epoch iteration :: Backward epoch iteration
         :: Forward epoch iteration :: events s |}.

(** The ETA of line 95 for a running average [avg]. *)
Definition eta_of (world : World) (iteration : nat) (avg : Q) : Z :=
  py_int (avg * inject_Z (Z.of_nat (num_batches world) - Z.of_nat iteration)).

(** A property of states that a computation keeps, however it ends. *)
Definition preserves {A : Type} (I : State -> Prop) (m : M State A) : Prop :=
  forall s, I s -> I (snd (m s)).

(** ** Invariants of a run *)

(** The two trackers hold the least RMSE computed so far, the best-flag is
    down between metrics blocks, and the [is_best] arguments passed to
    [save_checkpoint] are the new-minimum flags of the training RMSE
    values. *)
Definition trackers_ok (s : State) : Prop :=
  is_best s = false
  /\ best_rmse s = running_min sentinel (train_rmse_seen (history s))
  /\ best_test_rmse s = running_min sentinel (test_rmse_seen (history s))
  /\ checkpoint_flags (history s)
     = new_minimum_flags sentinel (train_rmse_seen (history s)).

(** An event that is neither a metric evaluation nor a checkpoint call. *)
Definition quiet (e : Event) : Prop :=
  train_rmse_of e = [] /\ test_rmse_of e = [] /\ checkpoint_flag_of e = [].

(** The three accumulators hold every batch that went through the network
    since the driver started. *)
Definition accumulators_ok (world : World) (s : State) : Prop :=
  accumulated_per_pixel_loss s
  = RunningAverage.updates RunningAverage.init
      (per_pixel_calls world (history s))
  /\ accumulated_feature_loss s
     = RunningAverage.updates RunningAverage.init
         (feature_calls world (history s))
  /\ accumulated_iteration_time s
     = RunningAverage.updates RunningAverage.init
         (time_calls world (history s)).

(** The steps passed to [wandb.log] so far never decrease and none exceeds
    the current step counter. *)
Definition steps_ok (s : State) : Prop :=
  StronglySorted Z.le (log_steps (history s))
  /\ Forall (fun st => st <= wandb_step s) (log_steps (history s)).


(** The events a state [s'] has logged since an earlier state [s], oldest
    first. *)
Definition events_since (s s' : State) : list Event :=
  rev (firstn (List.length (events s') - List.length (events s)) (events s')).


(** ** Sample runs *)

Definition sample_metrics (r : Q) : Metrics :=
  {| rmse := r; other_metrics := [("abs_rel"%string, r / (2 # 1))%Q] |}.

Definition sample_config (first last loss_every metrics_every : Z) : Config :=
  {| batch_size := 2; lr := 1 # 1000; lr_scheduler_step_size := 2;
     start_epoch := first; epochs := last;
     training_loss_log_interval := loss_every;
     other_metrics_log_interval := metrics_every;
     test_batch_size := 2 |}.

(** Batches of two samples; at batch [i] the training RMSE is [i + 1] and
    the validation RMSE is [5 - 2 i]; the per-pixel loss of epoch [e] is
    [2 e + 1]; every iteration takes 2.5 seconds. *)
Definition sample_obs (epoch : Z) (iteration : nat) : BatchObs :=
  {| batch_n := 2;
     per_pixel_loss := inject_Z (2 * epoch + 1);
     feature_loss := 3 # 1;
     it_time := 5 # 2;
     metrics := sample_metrics (inject_Z (Z.of_nat iteration + 1));
     test_loss := 7 # 1;
     test_metrics := sample_metrics (inject_Z (5 - 2 * Z.of_nat iteration)) |}.

Definition sample_world (batches : nat) : World :=
  {| num_batches := batches; observe := sample_obs |}.

(** Agreement of two read results up to equality of rationals. *)
Definition outcome_Qeq (x y : Outcome Q) : Prop :=
  match x, y with
  | Ok a, Ok b => (a == b)%Q
  | Raise e, Raise e' => e = e'
  | _, _ => False
  end.

(** What a loss-log entry must carry, given the events [older] that came
    before it (newest first): the running average over every batch that
    went through the network since the driver started. *)
Definition loss_log_value (world : World) (older : list Event) (e : Event)
  : Prop :=
  match e with
  | WandbLog k v _ =>
      if String.eqb k "Average per-pixel loss" then
        exists a, v = Scalar a
          /\ RunningAverage.read
               (RunningAverage.updates RunningAverage.init
                  (per_pixel_calls world (rev older))) = Ok a
      else if String.eqb k "Average feature loss" then
        exists a, v = Scalar a
          /\ RunningAverage.read
               (RunningAverage.updates RunningAverage.init
                  (feature_calls world (rev older))) = Ok a
      else True
  | _ => True
  end.

(** Every loss-log entry of a log (newest first) carries that value. *)
Fixpoint loss_logs_ok (world : World) (evs : list Event) : Prop :=
  match evs with
  | [] => True
  | e :: older => loss_log_value world older e /\ loss_logs_ok world older
  end.

Definition averages_ok (world : World) (s : State) : Prop :=
  accumulators_ok world s /\ loss_logs_ok world (events s).




(** The batch that went through the network last. *)
Definition latest_forward (h : list Event) : option (Z * nat) :=
  hd_error (rev (forwards h)).

(** The local variable [eta] is unset until the first batch is done; from
    then on it is the running average of the iteration time, as the
    accumulator now reads, times [num_batches - iteration] for the latest
    batch, cut to whole seconds. *)
Definition eta_ok (world : World) (s : State) : Prop :=
  match latest_forward (history s) with
  | None => eta s = None
  | Some (_, i) =>
      exists avg,
        RunningAverage.read (accumulated_iteration_time s) = Ok avg
        /\ eta s = Some (eta_of world i avg)
  end.



Definition at_iteration (i : nat) (s : State) : Prop :=
  exists e, latest_forward (history s) = Some (e, i).

Definition timing_ok (world : World) (s : State) : Prop :=
  averages_ok world s /\ eta_ok world s.


(** An event of the start-up (lines 48-55). *)
Definition startup_event (e : Event) : Prop :=
  e = LoadCheckpoint \/ e = LrSchedulerStep.

Definition only_started (s : State) : Prop :=
  Forall startup_event (events s).

(** ** What a computation adds to a reading of the history

    [contributes proj g m]: whatever the state [m] starts in, the values
    that [proj] reads off the events [m] emits are a prefix of [g], and all
    of [g] when [m] returns. *)
Definition contributes {A B : Type} (proj : Event -> list B) (g : list B)
  (m : M State A) : Prop :=
  forall s, exists p q,
    g = p ++ q
    /\ flat_map proj (history (snd (m s))) = flat_map proj (history s) ++ p
    /\ (forall a, fst (m s) = Ok a -> q = []).

(** The reading [proj] of the history is [l]. *)
Definition reads_as {B : Type} (proj : Event -> list B) (l : list B)
  (s : State) : Prop :=
  flat_map proj (history s) = l.

(** The batches of a whole run, in the order of the two loops. *)
Definition batch_schedule (config : Config) (world : World)
  : list (Z * nat) :=
  flat_map (fun e => map (pair e) (seq 0 (num_batches world)))
    (py_range2 (start_epoch config) (epochs config)).

(** The events of an epoch that has no batch (lines 131-137). *)
Definition epoch_end_events (e : Z) : list Event :=
  [Print (EpochComplete e); LrSchedulerStep; EmptyCache; SaveEpoch e].

(** The events of the start-up (lines 48-55) when every step succeeds. *)
Definition startup_events (config : Config) (local : bool) : list Event :=
  (if local then [LoadCheckpoint] else [])
  ++ repeat LrSchedulerStep (Z.to_nat (start_epoch config)).

(** The three accumulators are as line 60-62 created them. *)
Definition fresh_accumulators (s : State) : Prop :=
  accumulated_per_pixel_loss s = RunningAverage.init
  /\ accumulated_feature_loss s = RunningAverage.init
  /\ accumulated_iteration_time s = RunningAverage.init.

Definition checkpoint_iteration_of (e : Event) : list Z :=
  match e with SaveCheckpoint it _ _ => [it] | _ => [] end.

(** Since its log was [older], the computation has kept the step counter at
    [c] and has passed [c] to every [wandb.log] and [save_checkpoint]
    call. *)
Definition epoch_steps (c : Z) (older : list Event) (s : State) : Prop :=
  wandb_step s = c
  /\ exists es,
       events s = rev es ++ older
       /\ Forall (fun st => st = c) (log_steps es)
       /\ Forall (fun st => st = c) (flat_map checkpoint_iteration_of es).

Definition is_evaluate_predictions (e : Event) : bool :=
  match e with EvaluatePredictions _ => true | _ => false end.

(** A [save_checkpoint] call that passes [train = True]. *)
Definition tagged_train (e : Event) : Prop :=
  match e with SaveCheckpoint _ _ t => t = true | _ => True end.

(** Every checkpoint call so far was tagged as a training checkpoint, and
    there were as many validation passes as metric evaluations. *)
Definition metric_calls_ok (s : State) : Prop :=
  Forall tagged_train (events s)
  /\ List.length (test_rmse_seen (history s))
     = List.length (train_rmse_seen (history s)).




Definition progress_of (e : Event) : list (Z * nat) :=
  match e with Print (ProgressLine ep it _ _ _) => [(ep, it)] | _ => [] end.

Definition loss_line_of (e : Event) : list (Z * nat) :=
  match e with Print (LossLine ep it _ _) => [(ep, it)] | _ => [] end.

(** The test of lines 97 and 103 for a non-zero interval: the iteration is
    a multiple of the interval. *)
Definition due (interval : Z) (p : Z * nat) : bool :=
  Z.of_nat (snd p) mod interval =? 0.

(** The value an event writes under [key] in the run summary. *)
Definition summary_of (key : string) (e : Event) : list Q :=
  match e with
  | SummarySet k v => if String.eqb k key then [v] else []
  | _ => []
  end.

(** What the run summary holds under [key] after a history, or the sentinel
    when nothing was written under it. *)
Definition summary_value (key : string) (h : list Event) : Q :=
  last (flat_map (summary_of key) h) sentinel.

Definition summary_ok (s : State) : Prop :=
  best_rmse s = summary_value "best_train_rmse" (history s)
  /\ best_test_rmse s = summary_value "best_test_rmse" (history s).

(** * Proofs *)

(** ** The monad *)

Lemma preserves_ret {A : Type} (I : State -> Prop) (a : A) :
  preserves I (ret a).
Proof. intros s H; exact H. Qed.

Lemma preserves_bind {A B : Type} (I : State -> Prop)
  (m : M State A) (k : A -> M State B) :
  preserves I m -> (forall a, preserves I (k a)) -> preserves I (bind m k).
Proof.
  intros Hm Hk s H. unfold bind.
  specialize (Hm s H). destruct (m s) as [[a|e] s']; simpl in *.
  - apply Hk, Hm.
  - exact Hm.
Qed.

Lemma preserves_for {A : Type} (I : State -> Prop)
  (xs : list A) (body : A -> M State unit) :
  (forall x, In x xs -> preserves I (body x)) -> preserves I (for_ xs body).
Proof.
  induction xs as [|x rest IH]; intro H; simpl.
  - apply preserves_ret.
  - apply preserves_bind.
    + apply H; left; reflexivity.
    + intros _. apply IH. intros y Hy. apply H; right; exact Hy.
Qed.

Lemma preserves_lift {A : Type} (I : State -> Prop) (r : Outcome A) :
  preserves I (lift r).
Proof. intros s H; exact H. Qed.

Lemma preserves_gets {A : Type} (I : State -> Prop) (f : State -> A) :
  preserves I (gets f).
Proof. intros s H; exact H. Qed.

Lemma for_app {A : Type} (xs ys : list A) (body : A -> M State unit)
  (s : State) :
  for_ (xs ++ ys) body s = (for_ xs body ;; for_ ys body) s.
Proof.
  revert s; induction xs as [|x rest IH]; intro s; simpl.
  - unfold bind, ret. reflexivity.
  - unfold bind in *. destruct (body x s) as [[[]|e] s']; [|reflexivity].
    apply IH.
Qed.

Lemma for_flat_map {A B : Type} (f : A -> list B) (xs : list A)
  (body : B -> M State unit) (s : State) :
  for_ (flat_map f xs) body s = for_ xs (fun x => for_ (f x) body) s.
Proof.
  revert s; induction xs as [|x rest IH]; intro s; simpl; [reflexivity|].
  rewrite for_app. unfold bind.
  destruct (for_ (f x) body s) as [[[]|e] s']; [apply IH|reflexivity].
Qed.

Lemma for_ext {A : Type} (xs : list A) (f g : A -> M State unit) (s : State) :
  (forall x s', f x s' = g x s') -> for_ xs f s = for_ xs g s.
Proof.
  intro H. revert s; induction xs as [|x rest IH]; intro s; simpl.
  - reflexivity.
  - unfold bind. rewrite H. destruct (g x s) as [[[]|e] s']; auto.
Qed.

Lemma add_events_nil (s : State) : add_events [] s = s.
Proof. destruct s; reflexivity. Qed.

Lemma for_emit {A : Type} (f : A -> Event) (xs : list A) (s : State) :
  for_ xs (fun x => emit (f x)) s = (Ok tt, add_events (map f xs) s).
Proof.
  revert s; induction xs as [|x rest IH]; intro s; simpl.
  - rewrite add_events_nil. reflexivity.
  - unfold bind, emit, modify at 1. rewrite IH.
    unfold add_events, record_event; simpl.
    rewrite <- app_assoc. reflexivity.
Qed.

(** ** The blocks in closed form *)

Lemma progress_line_ok : percent_format progress_line_format 6 = Ok tt.
Proof. reflexivity. Qed.

Lemma epoch_line_ok : percent_format epoch_line_format 2 = Ok tt.
Proof. reflexivity. Qed.

Lemma loss_line_fails : percent_format loss_line_format 5 = Raise TypeError.
Proof. reflexivity. Qed.

Lemma completed_loss_line_ok :
  percent_format completed_loss_line_format 5 = Ok tt.
Proof. reflexivity. Qed.

Lemma write_metrics_eq (m : Metrics) (step : Z) (train : bool) (s : State) :
  write_metrics m step train s
  = (Ok tt, add_events (metrics_log_entries m step train) s).
Proof. unfold write_metrics. apply for_emit. Qed.

Lemma metrics_log_block_eq (config : Config) (world : World)
  (epoch : Z) (iteration : nat) (s : State) :
  metrics_log_block config world epoch iteration s
  = match RunningAverage.read (accumulated_iteration_time s) with
    | Ok avg =>
        (Ok tt,
         metrics_block_state config (observe world epoch iteration)
           epoch iteration s avg)
    | Raise x => (Raise x, s)
    end.
Proof.
  unfold metrics_block_state, metrics_block_events.
  set (o := observe world epoch iteration).
  unfold metrics_log_block, read_of, compare_predictions,
    track_best_train, track_best_test, emit.
  fold o.
  unfold bind at 1. unfold bind at 1. unfold gets at 1, lift at 1.
  destruct (RunningAverage.read (accumulated_iteration_time s)) as [avg|x];
    [|reflexivity].
  rewrite progress_line_ok.
  unfold bind, gets, lift, modify, ret.
  rewrite !write_metrics_eq. simpl wandb_step.
  generalize (metrics_log_entries (metrics o) (wandb_step s) true).
  generalize (metrics_log_entries (test_metrics o) (wandb_step s) false).
  intros l2 l1. simpl.
  destruct (Qltb (rmse (metrics o)) (best_rmse s)); simpl;
    destruct (Qltb (rmse (test_metrics o)) (best_test_rmse s));
    simpl; do 2 f_equal;
    repeat (rewrite ?rev_app_distr; simpl; rewrite <- ?app_assoc);
    simpl; reflexivity.
Qed.

Lemma train_step_eq (world : World) (epoch : Z) (iteration : nat) (s : State) :
  train_step world epoch iteration s
  = let s1 := train_step_state (observe world epoch iteration)
                epoch iteration s in
    match RunningAverage.read (accumulated_iteration_time s1) with
    | Ok avg => (Ok tt, set_eta (Some (eta_of world iteration avg)) s1)
    | Raise x => (Raise x, s1)
    end.
Proof.
  unfold train_step, read_of, emit, bind, gets, lift, modify. simpl.
  unfold train_step_state, eta_of.
  destruct (RunningAverage.read _); reflexivity.
Qed.

Lemma loss_log_block_eq (fmt : string) (epoch : Z) (iteration : nat)
  (s : State) :
  loss_log_block fmt epoch iteration s
  = match RunningAverage.read (accumulated_per_pixel_loss s),
          RunningAverage.read (accumulated_feature_loss s),
          percent_format fmt 5 with
    | Ok a, Ok b, Ok _ =>
        (Ok tt,
         add_events
           [Print Timestamp; Print (LossLine epoch iteration a b);
            WandbLog "Average per-pixel loss" (Scalar a) (wandb_step s);
            WandbLog "Average feature loss" (Scalar b) (wandb_step s)] s)
    | Ok _, Ok _, Raise x => (Raise x, add_events [Print Timestamp] s)
    | Ok _, Raise x, _ => (Raise x, add_events [Print Timestamp] s)
    | Raise x, _, _ => (Raise x, add_events [Print Timestamp] s)
    end.
Proof.
  unfold loss_log_block, read_of, emit, bind, gets, lift, modify. simpl.
  destruct (RunningAverage.read (accumulated_per_pixel_loss s)) as [a|x];
    [|reflexivity].
  destruct (RunningAverage.read (accumulated_feature_loss s)) as [b|x];
    [|reflexivity].
  destruct (percent_format fmt 5) as [[]|x]; reflexivity.
Qed.

Lemma scheduler_step_eq (s : State) :
  scheduler_step s
  = match StepLR.step (lr_scheduler s) with
    | Ok sch => (Ok tt, set_lr_scheduler sch (add_events [LrSchedulerStep] s))
    | Raise x => (Raise x, add_events [LrSchedulerStep] s)
    end.
Proof.
  unfold scheduler_step, emit, bind, gets, lift, modify. simpl.
  destruct (StepLR.step (lr_scheduler s)); reflexivity.
Qed.

Lemma epoch_end_eq (epoch : Z) (s : State) :
  epoch_end epoch s
  = match StepLR.step (lr_scheduler s) with
    | Ok sch =>
        (Ok tt,
         set_lr_scheduler sch
           (add_events [Print (EpochComplete epoch); LrSchedulerStep;
                        EmptyCache; SaveEpoch epoch] s))
    | Raise x =>
        (Raise x,
         add_events [Print (EpochComplete epoch); LrSchedulerStep] s)
    end.
Proof.
  unfold epoch_end. unfold bind at 1. rewrite epoch_line_ok.
  unfold lift at 1. unfold bind at 1. unfold emit at 1, modify at 1.
  unfold bind at 1. rewrite scheduler_step_eq. simpl.
  destruct (StepLR.step (lr_scheduler s)); reflexivity.
Qed.

(** The nested loops run the blocks of [program], in order. *)
Lemma iteration_body_blocks (fmt : string) (config : Config) (world : World)
  (epoch : Z) (iteration : nat) (s : State) :
  iteration_body fmt config world epoch iteration s
  = for_ (iteration_blocks epoch iteration) (exec_block fmt config world) s.
Proof.
  unfold iteration_body, iteration_blocks; simpl. unfold bind, ret.
  destruct (train_step world epoch iteration s) as [[[]|x] s1]; [|reflexivity].
  destruct (loss_log fmt config epoch iteration s1) as [[[]|x] s2];
    [|reflexivity].
  destruct (metrics_log config world epoch iteration s2) as [[[]|x] s3];
    reflexivity.
Qed.

Lemma train_epoch_blocks (fmt : string) (config : Config) (world : World)
  (epoch : Z) (s : State) :
  train_epoch fmt config world epoch s
  = for_ (epoch_blocks world epoch) (exec_block fmt config world) s.
Proof.
  unfold train_epoch, epoch_blocks.
  cbn [for_ exec_block]. unfold bind.
  destruct (epoch_begin s) as [[[]|x] s1]; [|reflexivity].
  rewrite for_app. unfold bind.
  rewrite for_flat_map.
  rewrite (for_ext _
             (fun i => for_ (iteration_blocks epoch i)
                         (exec_block fmt config world))
             (iteration_body fmt config world epoch)).
  2:{ intros i s'. symmetry. apply iteration_body_blocks. }
  destruct (for_ _ (iteration_body fmt config world epoch) s1)
    as [[[]|x] s2]; [|reflexivity].
  cbn [for_ exec_block]. unfold bind, ret.
  destruct (epoch_end epoch s2) as [[[]|x] s3]; reflexivity.
Qed.

Lemma main_loop_blocks (fmt : string) (config : Config) (world : World)
  (s : State) :
  main_loop fmt config world s
  = for_ (program config world) (exec_block fmt config world) s.
Proof.
  unfold main_loop, program. rewrite for_flat_map.
  apply for_ext. intros e s'. apply train_epoch_blocks.
Qed.

Lemma train_and_evaluate_blocks (fmt : string) (config : Config)
  (world : World) (local : bool) :
  train_and_evaluate_with fmt config world local
  = run_blocks fmt config world local (program config world).
Proof.
  unfold train_and_evaluate_with, run_blocks, bind.
  destruct (startup config local (initial_state config world))
    as [[[]|x] s]; [|reflexivity].
  apply main_loop_blocks.
Qed.

Lemma state_at_end (fmt : string) (config : Config) (world : World)
  (local : bool) :
  state_at fmt config world local (List.length (program config world))
  = snd (train_and_evaluate_with fmt config world local).
Proof.
  unfold state_at. rewrite firstn_all, train_and_evaluate_blocks.
  reflexivity.
Qed.

(** ** Histories *)

Lemma history_extended (s s' : State) (es : list Event) :
  events s' = rev es ++ events s -> history s' = history s ++ es.
Proof.
  unfold history. intro H. rewrite H, rev_app_distr, rev_involutive.
  reflexivity.
Qed.

Lemma flat_map_nil_on {A B : Type} (f : A -> list B) (l : list A) :
  Forall (fun x => f x = []) l -> flat_map f l = [].
Proof.
  induction 1 as [|x rest Hx _ IH]; simpl; [reflexivity|].
  rewrite Hx, IH. reflexivity.
Qed.

Lemma metrics_log_entries_are_logs (m : Metrics) (step : Z) (train : bool) :
  Forall (fun e => exists k v, e = WandbLog k v step)
    (metrics_log_entries m step train).
Proof.
  unfold metrics_log_entries. apply Forall_forall. intros e He.
  apply in_map_iff in He. destruct He as [kv [<- _]]. eauto.
Qed.

Lemma metrics_log_entries_project {B : Type} (f : Event -> list B)
  (m : Metrics) (step : Z) (train : bool) :
  (forall k v, f (WandbLog k v step) = []) ->
  flat_map f (metrics_log_entries m step train) = [].
Proof.
  intro H. apply flat_map_nil_on.
  eapply Forall_impl; [|apply metrics_log_entries_are_logs].
  intros e [k [v ->]]. apply H.
Qed.

Lemma projection_record_event {B : Type} (f : Event -> list B)
  (e : Event) (s : State) :
  flat_map f (history (record_event e s)) = flat_map f (history s) ++ f e.
Proof.
  unfold history; simpl. rewrite flat_map_app; simpl.
  rewrite app_nil_r. reflexivity.
Qed.

(** ** Running minima *)

Lemma Qmin_test (x y : Q) : Qmin x y = if Qltb y x then y else x.
Proof.
  unfold Qmin, GenericMinMax.gmin, Qltb, Qle_bool, Qcompare.
  destruct (Z.compare_spec (Qnum x * QDen y) (Qnum y * QDen x));
    destruct (Z.leb_spec (Qnum x * QDen y) (Qnum y * QDen x));
    simpl; try reflexivity; lia.
Qed.


Lemma running_min_snoc (start : Q) (rs : list Q) (r : Q) :
  running_min start (rs ++ [r])
  = if Qltb r (running_min start rs) then r else running_min start rs.
Proof.
  unfold running_min. rewrite fold_left_app. simpl. apply Qmin_test.
Qed.

Lemma new_minimum_flags_snoc (start : Q) (rs : list Q) (r : Q) :
  new_minimum_flags start (rs ++ [r])
  = new_minimum_flags start rs ++ [Qltb r (running_min start rs)].
Proof.
  revert start; induction rs as [|x rest IH]; intro start; simpl.
  - reflexivity.
  - rewrite IH. reflexivity.
Qed.


(** ** The trackers *)

Lemma trackers_ok_initial (config : Config) (world : World) :
  trackers_ok (initial_state config world).
Proof. repeat split. Qed.

Lemma trackers_ok_frame (s s' : State) (es : list Event) :
  trackers_ok s ->
  best_rmse s' = best_rmse s -> is_best s' = is_best s ->
  best_test_rmse s' = best_test_rmse s ->
  events s' = rev es ++ events s -> Forall quiet es ->
  trackers_ok s'.
Proof.
  intros (Hb & Hr & Ht & Hf) Er Eb Et Ee Hq.
  pose proof (history_extended _ _ _ Ee) as Hh.
  assert (Q1 : train_rmse_seen es = []).
  { apply flat_map_nil_on. eapply Forall_impl; [|exact Hq].
    intros e He; apply He. }
  assert (Q2 : test_rmse_seen es = []).
  { apply flat_map_nil_on. eapply Forall_impl; [|exact Hq].
    intros e He; apply He. }
  assert (Q3 : checkpoint_flags es = []).
  { apply flat_map_nil_on. eapply Forall_impl; [|exact Hq].
    intros e He; apply He. }
  unfold trackers_ok, train_rmse_seen, test_rmse_seen, checkpoint_flags in *.
  rewrite Hh, !flat_map_app, Q1, Q2, Q3, !app_nil_r.
  repeat split; congruence.
Qed.

Lemma trackers_ok_emit (e : Event) :
  quiet e -> preserves trackers_ok (emit e).
Proof.
  intros Hq s H. simpl.
  apply (trackers_ok_frame s _ [e] H); try reflexivity.
  constructor; [exact Hq|constructor].
Qed.

Lemma trackers_ok_modify (f : State -> State) :
  (forall s, best_rmse (f s) = best_rmse s /\ is_best (f s) = is_best s
             /\ best_test_rmse (f s) = best_test_rmse s
             /\ events (f s) = events s) ->
  preserves trackers_ok (modify f).
Proof.
  intros Hf s H. simpl. destruct (Hf s) as (E1 & E2 & E3 & E4).
  apply (trackers_ok_frame s _ [] H); auto.
Qed.

Ltac quiet_event := repeat split.

Ltac keep_with on_emit on_modify :=
  repeat match goal with
    | |- preserves _ (bind _ _) => apply preserves_bind; [|intro]
    | |- preserves _ (ret _) => apply preserves_ret
    | |- preserves _ (lift _) => apply preserves_lift
    | |- preserves _ (gets _) => apply preserves_gets
    | |- preserves _ (for_ _ _) => apply preserves_for; intros ? _
    | |- preserves _ (emit _) => on_emit
    | |- preserves _ (modify _) => on_modify
    | |- preserves _ (if ?c then _ else _) => destruct c
    end.

Ltac keep_trackers :=
  keep_with ltac:(apply trackers_ok_emit; quiet_event)
            ltac:(apply trackers_ok_modify; intro; repeat split).

Lemma trackers_ok_startup (config : Config) (local : bool) :
  preserves trackers_ok (startup config local).
Proof. unfold startup, scheduler_step. keep_trackers. Qed.

Lemma trackers_ok_train_step (world : World) (e : Z) (i : nat) :
  preserves trackers_ok (train_step world e i).
Proof. unfold train_step, read_of. keep_trackers. Qed.

Lemma trackers_ok_loss_log (fmt : string) (config : Config) (e : Z) (i : nat) :
  preserves trackers_ok (loss_log fmt config e i).
Proof. unfold loss_log, loss_log_block, read_of. keep_trackers. Qed.

Lemma trackers_ok_epoch_end (e : Z) : preserves trackers_ok (epoch_end e).
Proof. unfold epoch_end, scheduler_step. keep_trackers. Qed.

Lemma metrics_block_train_rmse (config : Config) (o : BatchObs) (e : Z)
  (i : nat) (s : State) (avg : Q) :
  train_rmse_seen (metrics_block_events config o e i s avg)
  = [rmse (metrics o)].
Proof.
  unfold train_rmse_seen, metrics_block_events.
  repeat (rewrite flat_map_app).
  rewrite !metrics_log_entries_project by reflexivity.
  destruct (Qltb (rmse (metrics o)) (best_rmse s));
    destruct (Qltb (rmse (test_metrics o)) (best_test_rmse s)); reflexivity.
Qed.

Lemma metrics_block_test_rmse (config : Config) (o : BatchObs) (e : Z)
  (i : nat) (s : State) (avg : Q) :
  test_rmse_seen (metrics_block_events config o e i s avg)
  = [rmse (test_metrics o)].
Proof.
  unfold test_rmse_seen, metrics_block_events.
  repeat (rewrite flat_map_app).
  rewrite !metrics_log_entries_project by reflexivity.
  destruct (Qltb (rmse (metrics o)) (best_rmse s));
    destruct (Qltb (rmse (test_metrics o)) (best_test_rmse s)); reflexivity.
Qed.

Lemma metrics_block_flags (config : Config) (o : BatchObs) (e : Z)
  (i : nat) (s : State) (avg : Q) :
  checkpoint_flags (metrics_block_events config o e i s avg)
  = [if Qltb (rmse (metrics o)) (best_rmse s) then true else is_best s].
Proof.
  unfold checkpoint_flags, metrics_block_events.
  repeat (rewrite flat_map_app).
  rewrite !metrics_log_entries_project by reflexivity.
  destruct (Qltb (rmse (metrics o)) (best_rmse s));
    destruct (Qltb (rmse (test_metrics o)) (best_test_rmse s)); reflexivity.
Qed.

Lemma trackers_ok_metrics_block_state (config : Config) (o : BatchObs)
  (e : Z) (i : nat) (s : State) (avg : Q) :
  trackers_ok s -> trackers_ok (metrics_block_state config o e i s avg).
Proof.
  intros (Hb & Hr & Ht & Hf).
  pose proof (history_extended s (metrics_block_state config o e i s avg)
                (metrics_block_events config o e i s avg) eq_refl) as Hh.
  unfold trackers_ok. rewrite Hh.
  unfold train_rmse_seen, test_rmse_seen, checkpoint_flags in *.
  rewrite !flat_map_app.
  pose proof (metrics_block_train_rmse config o e i s avg) as E1.
  pose proof (metrics_block_test_rmse config o e i s avg) as E2.
  pose proof (metrics_block_flags config o e i s avg) as E3.
  unfold train_rmse_seen, test_rmse_seen, checkpoint_flags in *.
  rewrite E1, E2, E3, !running_min_snoc, new_minimum_flags_snoc.
  rewrite <- Hr, <- Ht, Hf, Hb. simpl.
  repeat split.
  destruct (Qltb (rmse (metrics o)) (best_rmse s)); reflexivity.
Qed.

Lemma trackers_ok_metrics_log (config : Config) (world : World)
  (e : Z) (i : nat) :
  preserves trackers_ok (metrics_log config world e i).
Proof.
  intros s H. unfold metrics_log, bind, lift.
  destruct (py_mod _ _) as [r|x]; [|exact H].
  destruct (r =? 0); [|exact H].
  rewrite metrics_log_block_eq.
  destruct (RunningAverage.read _) as [avg|x]; [|exact H].
  apply trackers_ok_metrics_block_state, H.
Qed.

Lemma trackers_ok_block (fmt : string) (config : Config) (world : World)
  (b : Block) :
  preserves trackers_ok (exec_block fmt config world b).
Proof.
  destruct b; simpl.
  - unfold epoch_begin. keep_trackers.
  - apply trackers_ok_train_step.
  - apply trackers_ok_loss_log.
  - apply trackers_ok_metrics_log.
  - apply trackers_ok_epoch_end.
Qed.

Lemma run_blocks_invariant (I : State -> Prop) (fmt : string)
  (config : Config) (world : World) (local : bool) (bs : list Block) :
  I (initial_state config world) ->
  preserves I (startup config local) ->
  (forall b, preserves I (exec_block fmt config world b)) ->
  I (snd (run_blocks fmt config world local bs)).
Proof.
  intros H0 Hs Hb. unfold run_blocks.
  apply (preserves_bind I); [exact Hs| |exact H0].
  intros _. apply preserves_for. intros b _. apply Hb.
Qed.

Lemma trackers_ok_run (fmt : string) (config : Config) (world : World)
  (local : bool) (bs : list Block) :
  trackers_ok (snd (run_blocks fmt config world local bs)).
Proof.
  apply run_blocks_invariant.
  - apply trackers_ok_initial.
  - apply trackers_ok_startup.
  - apply trackers_ok_block.
Qed.











(** ** Running averages *)

Module RunningAverageFacts.
Import RunningAverage.

Lemma updates_cons (c : Q * Z) (calls : list (Q * Z)) (a : t) :
  updates a (c :: calls) = updates (update a (fst c) (snd c)) calls.
Proof. reflexivity. Qed.

Lemma updates_count (calls : list (Q * Z)) (a : t) :
  count (updates a calls) = count a + weight_sum calls.
Proof.
  revert a; induction calls as [|[v w] rest IH]; intro a.
  - simpl. lia.
  - rewrite updates_cons, IH. simpl. lia.
Qed.

Lemma updates_total (calls : list (Q * Z)) (a : t) :
  (total (updates a calls) == total a + weighted_sum calls)%Q.
Proof.
  revert a; induction calls as [|[v w] rest IH]; intro a.
  - simpl. ring.
  - rewrite updates_cons, IH. simpl. ring.
Qed.

Lemma updates_app (xs ys : list (Q * Z)) (a : t) :
  updates a (xs ++ ys) = updates (updates a xs) ys.
Proof. unfold updates. apply fold_left_app. Qed.

End RunningAverageFacts.

(** C4.  After any finite sequence of [update(value, weight)] calls on a new
    accumulator, the read returns the weighted sum of the values divided by
    the sum of the weights; when that sum of weights is zero -- in
    particular before any update -- the read fails with the
    empty-accumulator condition instead of dividing. *)
Theorem C4_running_average_read (calls : list (Q * Z)) :
  outcome_Qeq
    (RunningAverage.read (RunningAverage.updates RunningAverage.init calls))
    (if RunningAverage.weight_sum calls =? 0 then Raise EmptyAccumulator
     else Ok (RunningAverage.weighted_sum calls
              / inject_Z (RunningAverage.weight_sum calls))%Q)
  /\ RunningAverage.read RunningAverage.init = Raise EmptyAccumulator.
Proof.
  split; [|reflexivity].
  unfold RunningAverage.read.
  rewrite RunningAverageFacts.updates_count. simpl RunningAverage.count.
  rewrite Z.add_0_l.
  destruct (RunningAverage.weight_sum calls =? 0) eqn:E; simpl; [reflexivity|].
  rewrite RunningAverageFacts.updates_total. simpl RunningAverage.total.
  apply Z.eqb_neq in E.
  field. intro H. apply E.
  unfold Qeq in H. simpl in H. lia.
Qed.

(** ** The accumulators *)

Lemma accumulators_ok_frame (world : World) (s s' : State) (es : list Event) :
  accumulators_ok world s ->
  accumulated_per_pixel_loss s' = accumulated_per_pixel_loss s ->
  accumulated_feature_loss s' = accumulated_feature_loss s ->
  accumulated_iteration_time s' = accumulated_iteration_time s ->
  events s' = rev es ++ events s -> forwards es = [] ->
  accumulators_ok world s'.
Proof.
  intros (H1 & H2 & H3) E1 E2 E3 Ee Hf.
  pose proof (history_extended _ _ _ Ee) as Hh.
  unfold accumulators_ok, per_pixel_calls, feature_calls, time_calls,
    forwards in *.
  rewrite Hh, flat_map_app, Hf, app_nil_r, E1, E2, E3.
  repeat split; assumption.
Qed.

Lemma averages_ok_emit (world : World) (e : Event) :
  forward_of e = [] -> (forall older, loss_log_value world older e) ->
  preserves (averages_ok world) (emit e).
Proof.
  intros Hf Hv s [Ha Hl]. split.
  - apply (accumulators_ok_frame world s _ [e] Ha); try reflexivity.
    unfold forwards; simpl. rewrite Hf. reflexivity.
  - simpl. split; [apply Hv|exact Hl].
Qed.

Lemma averages_ok_modify (world : World) (f : State -> State) :
  (forall s, accumulated_per_pixel_loss (f s) = accumulated_per_pixel_loss s
             /\ accumulated_feature_loss (f s) = accumulated_feature_loss s
             /\ accumulated_iteration_time (f s)
                = accumulated_iteration_time s
             /\ events (f s) = events s) ->
  preserves (averages_ok world) (modify f).
Proof.
  intros Hf s [Ha Hl]. destruct (Hf s) as (E1 & E2 & E3 & E4). split.
  - apply (accumulators_ok_frame world s _ [] Ha); auto.
  - simpl. rewrite E4. exact Hl.
Qed.

Ltac keep_averages :=
  keep_with ltac:(apply averages_ok_emit;
                  [reflexivity | intro; simpl; exact I])
            ltac:(apply averages_ok_modify; intro; repeat split).

Lemma averages_ok_initial (config : Config) (world : World) :
  averages_ok world (initial_state config world).
Proof. repeat split. Qed.

Lemma averages_ok_startup (world : World) (config : Config) (local : bool) :
  preserves (averages_ok world) (startup config local).
Proof. unfold startup, scheduler_step. keep_averages. Qed.

Lemma averages_ok_train_step_state (world : World) (e : Z) (i : nat)
  (s : State) :
  averages_ok world s ->
  averages_ok world (train_step_state (observe world e i) e i s).
Proof.
  intros [(H1 & H2 & H3) Hl]. split.
  - pose proof (history_extended s
                  (train_step_state (observe world e i) e i s)
                  [Forward e i; Backward e i; OptimizerStep e i] eq_refl)
      as Hh.
    unfold accumulators_ok, per_pixel_calls, feature_calls, time_calls,
      forwards.
    rewrite Hh, flat_map_app, !map_app,
      !RunningAverageFacts.updates_app.
    unfold per_pixel_calls, feature_calls, time_calls, forwards in H1, H2, H3.
    rewrite <- H1, <- H2, <- H3. repeat split.
  - simpl. repeat split. exact Hl.
Qed.

Lemma averages_ok_train_step (world : World) (e : Z) (i : nat) :
  preserves (averages_ok world) (train_step world e i).
Proof.
  intros s H. rewrite train_step_eq. simpl.
  pose proof (averages_ok_train_step_state world e i s H) as H'.
  destruct (RunningAverage.read _); simpl; [|exact H'].
  destruct H' as [Ha Hl]. split; [|exact Hl].
  apply (accumulators_ok_frame world _ _ [] Ha); reflexivity.
Qed.

Lemma averages_ok_loss_log_block (world : World) (fmt : string) (e : Z)
  (i : nat) :
  preserves (averages_ok world) (loss_log_block fmt e i).
Proof.
  intros s [Ha Hl]. rewrite loss_log_block_eq.
  assert (Hq : forall es, forwards es = [] ->
               accumulators_ok world (add_events es s)).
  { intros es Hes.
    apply (accumulators_ok_frame world s _ es Ha); auto. }
  destruct Ha as (H1 & H2 & H3).
  destruct (RunningAverage.read (accumulated_per_pixel_loss s)) as [a|x] eqn:Ra;
    [|split; [apply Hq; reflexivity|simpl; auto]].
  destruct (RunningAverage.read (accumulated_feature_loss s)) as [b|x] eqn:Rb;
    [|split; [apply Hq; reflexivity|simpl; auto]].
  destruct (percent_format fmt 5) as [[]|x];
    [|split; [apply Hq; reflexivity|simpl; auto]].
  split; [apply Hq; reflexivity|].
  simpl. repeat split; try exact Hl.
  - exists b. split; [reflexivity|].
    rewrite <- Rb, H2. unfold history, feature_calls, forwards; simpl.
    rewrite !flat_map_app; simpl. rewrite !app_nil_r. reflexivity.
  - exists a. split; [reflexivity|].
    rewrite <- Ra, H1. unfold history, per_pixel_calls, forwards; simpl.
    rewrite !flat_map_app; simpl. rewrite !app_nil_r. reflexivity.
Qed.

Lemma averages_ok_block (fmt : string) (config : Config) (world : World)
  (b : Block) :
  preserves (averages_ok world) (exec_block fmt config world b).
Proof.
  destruct b; simpl.
  - unfold epoch_begin. keep_averages.
  - apply averages_ok_train_step.
  - unfold loss_log. apply preserves_bind; [apply preserves_lift|].
    intro r. destruct (r =? 0);
      [apply averages_ok_loss_log_block|apply preserves_ret].
  - unfold metrics_log, metrics_log_block, read_of, write_metrics,
      compare_predictions, track_best_train, track_best_test.
    keep_averages.
  - unfold epoch_end, scheduler_step. keep_averages.
Qed.









(** ** The step counter *)

Lemma StronglySorted_app_top (l1 l2 : list Z) (w : Z) :
  StronglySorted Z.le l1 -> Forall (fun x => x <= w) l1 ->
  Forall (fun x => x = w) l2 -> StronglySorted Z.le (l1 ++ l2).
Proof.
  intros Hs Hb Hc. induction Hs as [|x l Hl IH Hx]; simpl.
  - induction Hc as [|y l2 Hy Hc IH]; constructor; [exact IH|].
    subst y. eapply Forall_impl; [|exact Hc]. simpl; intros; lia.
  - inversion Hb as [|? ? Hxw Hlw]; subst.
    constructor; [apply IH, Hlw|].
    apply Forall_app; split; [exact Hx|].
    eapply Forall_impl; [|exact Hc]. simpl; intros; lia.
Qed.

Lemma steps_ok_extend (s s' : State) (es : list Event) :
  steps_ok s -> wandb_step s <= wandb_step s' ->
  events s' = rev es ++ events s ->
  Forall (fun st => st = wandb_step s) (log_steps es) ->
  steps_ok s'.
Proof.
  intros [Hs Hb] Hw Ee Hes.
  pose proof (history_extended _ _ _ Ee) as Hh.
  unfold steps_ok, log_steps in *. rewrite Hh, flat_map_app. split.
  - eapply StronglySorted_app_top; eassumption.
  - apply Forall_app; split.
    + eapply Forall_impl; [|exact Hb]. simpl; intros; lia.
    + eapply Forall_impl; [|exact Hes]. simpl; intros; lia.
Qed.

Lemma steps_ok_emit (e : Event) :
  log_step_of e = [] -> preserves steps_ok (emit e).
Proof.
  intros He s H. simpl.
  apply (steps_ok_extend s _ [e] H); [simpl; lia|reflexivity|].
  unfold log_steps; simpl. rewrite He. constructor.
Qed.

Lemma steps_ok_modify (f : State -> State) :
  (forall s, wandb_step s <= wandb_step (f s) /\ events (f s) = events s) ->
  preserves steps_ok (modify f).
Proof.
  intros Hf s H. simpl. destruct (Hf s) as [E1 E2].
  apply (steps_ok_extend s _ [] H);
    [exact E1 | rewrite E2; reflexivity | constructor].
Qed.

Ltac keep_steps :=
  keep_with ltac:(apply steps_ok_emit; reflexivity)
            ltac:(apply steps_ok_modify; intro; split;
                  [simpl; lia | reflexivity]).

Lemma metrics_log_entries_steps (m : Metrics) (step : Z) (train : bool) :
  Forall (fun st => st = step) (log_steps (metrics_log_entries m step train)).
Proof.
  unfold metrics_log_entries, log_steps.
  induction (items m) as [|kv rest IH]; simpl; constructor; auto.
Qed.

Lemma log_steps_app (xs ys : list Event) :
  log_steps (xs ++ ys) = log_steps xs ++ log_steps ys.
Proof. apply flat_map_app. Qed.

Lemma metrics_block_steps (config : Config) (o : BatchObs) (e : Z) (i : nat)
  (s : State) (avg : Q) :
  Forall (fun st => st = wandb_step s)
    (log_steps (metrics_block_events config o e i s avg)).
Proof.
  unfold metrics_block_events.
  pose proof (metrics_log_entries_steps (metrics o) (wandb_step s) true)
    as H1.
  pose proof (metrics_log_entries_steps (test_metrics o) (wandb_step s) false)
    as H2.
  set (l1 := metrics_log_entries (metrics o) (wandb_step s) true) in *.
  set (l2 := metrics_log_entries (test_metrics o) (wandb_step s) false) in *.
  clearbody l1 l2.
  rewrite !log_steps_app.
  repeat (apply Forall_app; split);
    first [ assumption
          | destruct (Qltb _ _); repeat constructor
          | repeat constructor ].
Qed.

Lemma steps_ok_initial (config : Config) (world : World) :
  steps_ok (initial_state config world).
Proof. split; constructor. Qed.

Lemma steps_ok_loss_log_block (fmt : string) (e : Z) (i : nat) :
  preserves steps_ok (loss_log_block fmt e i).
Proof.
  intros s H. rewrite loss_log_block_eq.
  assert (Hq : forall es,
             Forall (fun st => st = wandb_step s) (log_steps es) ->
             steps_ok (add_events es s)).
  { intros es Hes. apply (steps_ok_extend s _ es H); auto. simpl; lia. }
  destruct (RunningAverage.read (accumulated_per_pixel_loss s));
    [|apply Hq; constructor].
  destruct (RunningAverage.read (accumulated_feature_loss s));
    [|apply Hq; constructor].
  destruct (percent_format fmt 5) as [[]|x]; apply Hq; repeat constructor.
Qed.

Lemma steps_ok_metrics_log_block (config : Config) (world : World) (e : Z)
  (i : nat) :
  preserves steps_ok (metrics_log_block config world e i).
Proof.
  intros s H. rewrite metrics_log_block_eq.
  destruct (RunningAverage.read _) as [avg|x]; [|exact H].
  apply (steps_ok_extend s _
           (metrics_block_events config (observe world e i) e i s avg) H).
  - simpl; lia.
  - reflexivity.
  - apply metrics_block_steps.
Qed.

Lemma steps_ok_block (fmt : string) (config : Config) (world : World)
  (b : Block) :
  preserves steps_ok (exec_block fmt config world b).
Proof.
  destruct b; simpl.
  - unfold epoch_begin. keep_steps.
  - unfold train_step, read_of. keep_steps.
  - unfold loss_log. apply preserves_bind; [apply preserves_lift|].
    intro r. destruct (r =? 0);
      [apply steps_ok_loss_log_block|apply preserves_ret].
  - unfold metrics_log. apply preserves_bind; [apply preserves_lift|].
    intro r. destruct (r =? 0);
      [apply steps_ok_metrics_log_block|apply preserves_ret].
  - unfold epoch_end, scheduler_step. keep_steps.
Qed.

Lemma steps_ok_run (fmt : string) (config : Config) (world : World)
  (local : bool) (bs : list Block) :
  steps_ok (snd (run_blocks fmt config world local bs)).
Proof.
  apply run_blocks_invariant.
  - apply steps_ok_initial.
  - unfold startup, scheduler_step. keep_steps.
  - apply steps_ok_block.
Qed.

(** C9.  Over the log events of a run of [train_and_evaluate], in the order
    they are emitted, the step passed to [wandb.log] never decreases: the
    step of every log event is at most the step of every later one.  This
    holds at every block boundary of the run and at its end, however the
    run ends and whatever the loss line's format string. *)
Theorem C9_log_steps_never_decrease (fmt : string) (config : Config)
  (world : World) (local : bool) (k : nat) :
  StronglySorted Z.le
    (log_steps (history (snd (train_and_evaluate config world local))))
  /\ StronglySorted Z.le
       (log_steps
          (history (snd (train_and_evaluate_with fmt config world local))))
  /\ StronglySorted Z.le
       (log_steps (history (state_at fmt config world local k))).
Proof.
  unfold train_and_evaluate. rewrite !train_and_evaluate_blocks.
  repeat split; apply steps_ok_run.
Qed.

(** ** The learning-rate schedule *)








Lemma py_range2_length (a b : Z) :
  List.length (py_range2 a b) = Z.to_nat (b - a).
Proof. unfold py_range2. rewrite length_map, length_seq. reflexivity. Qed.




(** ** The ETA *)

Lemma preserves_and {A : Type} (I J : State -> Prop) (m : M State A) :
  preserves I m -> preserves J m -> preserves (fun s => I s /\ J s) m.
Proof. intros HI HJ s [H1 H2]. split; [apply HI, H1|apply HJ, H2]. Qed.

Lemma eta_ok_frame (world : World) (s s' : State) (es : list Event) :
  eta_ok world s ->
  eta s' = eta s ->
  accumulated_iteration_time s' = accumulated_iteration_time s ->
  events s' = rev es ++ events s -> forwards es = [] ->
  eta_ok world s'.
Proof.
  intros H E1 E2 Ee Hf.
  pose proof (history_extended _ _ _ Ee) as Hh.
  unfold eta_ok, latest_forward, forwards in *.
  rewrite Hh, flat_map_app, Hf, app_nil_r, E1, E2. exact H.
Qed.

Lemma eta_ok_emit (world : World) (e : Event) :
  forward_of e = [] -> preserves (eta_ok world) (emit e).
Proof.
  intros Hf s H. simpl.
  apply (eta_ok_frame world s _ [e] H); try reflexivity.
  unfold forwards; simpl. rewrite Hf. reflexivity.
Qed.

Lemma eta_ok_modify (world : World) (f : State -> State) :
  (forall s, eta (f s) = eta s
             /\ accumulated_iteration_time (f s)
                = accumulated_iteration_time s
             /\ events (f s) = events s) ->
  preserves (eta_ok world) (modify f).
Proof.
  intros Hf s H. simpl. destruct (Hf s) as (E1 & E2 & E3).
  apply (eta_ok_frame world s _ [] H); auto.
Qed.

Ltac keep_eta :=
  keep_with ltac:(apply eta_ok_emit; reflexivity)
            ltac:(apply eta_ok_modify; intro; repeat split).

Lemma time_calls_weight (world : World) (h : list Event) :
  RunningAverage.weight_sum (time_calls world h)
  = Z.of_nat (List.length (forwards h)).
Proof.
  unfold time_calls. induction (forwards h) as [|p rest IH].
  - reflexivity.
  - cbn [map RunningAverage.weight_sum List.length]. rewrite IH. lia.
Qed.

(** Once the accumulators span the run, the read of line 95 cannot fail. *)
Lemma iteration_time_read (world : World) (s : State) :
  accumulators_ok world s -> forwards (history s) <> [] ->
  exists avg, RunningAverage.read (accumulated_iteration_time s) = Ok avg.
Proof.
  intros (_ & _ & H) Hne. unfold RunningAverage.read.
  rewrite H, RunningAverageFacts.updates_count, time_calls_weight.
  simpl RunningAverage.count.
  destruct (forwards (history s)) as [|p rest]; [congruence|].
  simpl List.length.
  destruct (0 + Z.of_nat (S (List.length rest)) =? 0) eqn:E.
  - apply Z.eqb_eq in E. lia.
  - eauto.
Qed.

Lemma train_step_history (o : BatchObs) (e : Z) (i : nat) (s : State) :
  history (train_step_state o e i s)
  = history s ++ [Forward e i; Backward e i; OptimizerStep e i].
Proof. apply history_extended. reflexivity. Qed.

Lemma timing_ok_train_step (world : World) (e : Z) (i : nat) (s : State) :
  timing_ok world s ->
  exists s', train_step world e i s = (Ok tt, s')
             /\ timing_ok world s' /\ at_iteration i s'
             /\ events s'
                = rev [Forward e i; Backward e i; OptimizerStep e i]
                  ++ events s.
Proof.
  intros [Ha _]. rewrite train_step_eq. cbv zeta.
  pose proof (averages_ok_train_step_state world e i s Ha) as [Ha1 Hl1].
  assert (Hlatest : latest_forward
                      (history (train_step_state (observe world e i) e i s))
                    = Some (e, i)).
  { unfold latest_forward, forwards.
    rewrite train_step_history, flat_map_app; simpl.
    rewrite rev_app_distr. reflexivity. }
  destruct (iteration_time_read world _ Ha1) as [avg Hr].
  { intro C. unfold latest_forward in Hlatest. rewrite C in Hlatest.
    discriminate. }
  rewrite Hr. eexists. split; [reflexivity|].
  split; [split; [split|]|split].
  - apply (accumulators_ok_frame world _ _ [] Ha1); reflexivity.
  - exact Hl1.
  - unfold eta_ok.
    change (history (set_eta (Some (eta_of world i avg))
                       (train_step_state (observe world e i) e i s)))
      with (history (train_step_state (observe world e i) e i s)).
    rewrite Hlatest. exists avg. split; [exact Hr|reflexivity].
  - exists e. exact Hlatest.
  - reflexivity.
Qed.

Lemma timing_ok_block (fmt : string) (config : Config) (world : World)
  (b : Block) :
  preserves (timing_ok world) (exec_block fmt config world b).
Proof.
  destruct b.
  - apply preserves_and; [apply averages_ok_block|].
    simpl. unfold epoch_begin. keep_eta.
  - intros s H.
    destruct (timing_ok_train_step world epoch iteration s H)
      as (s' & E & H' & _).
    simpl. rewrite E. exact H'.
  - apply preserves_and; [apply averages_ok_block|].
    simpl. unfold loss_log, loss_log_block, read_of. keep_eta.
  - apply preserves_and; [apply averages_ok_block|].
    simpl. unfold metrics_log, metrics_log_block, read_of, write_metrics,
      compare_predictions, track_best_train, track_best_test.
    keep_eta.
  - apply preserves_and; [apply averages_ok_block|].
    simpl. unfold epoch_end, scheduler_step. keep_eta.
Qed.

Lemma timing_ok_startup (world : World) (config : Config) (local : bool) :
  preserves (timing_ok world) (startup config local).
Proof.
  apply preserves_and; [apply averages_ok_startup|].
  unfold startup, scheduler_step. keep_eta.
Qed.

Lemma timing_ok_initial (config : Config) (world : World) :
  timing_ok world (initial_state config world).
Proof. split; [apply averages_ok_initial|reflexivity]. Qed.

Lemma timing_ok_run (fmt : string) (config : Config) (world : World)
  (local : bool) (bs : list Block) :
  timing_ok world (snd (run_blocks fmt config world local bs)).
Proof.
  apply run_blocks_invariant.
  - apply timing_ok_initial.
  - apply timing_ok_startup.
  - apply timing_ok_block.
Qed.














(** ** The validation-best branch *)

Lemma events_since_extended (s s' : State) (es : list Event) :
  events s' = rev es ++ events s -> events_since s s' = es.
Proof.
  intro H. unfold events_since. rewrite H, length_app, Nat.add_sub.
  rewrite firstn_app, firstn_all, Nat.sub_diag. simpl.
  rewrite app_nil_r. apply rev_involutive.
Qed.

Lemma metrics_log_entries_filter (p : Event -> bool) (m : Metrics) (step : Z)
  (train : bool) :
  (forall k v, p (WandbLog k v step) = false) ->
  filter p (metrics_log_entries m step train) = [].
Proof.
  intro H. unfold metrics_log_entries.
  induction (items m) as [|kv rest IH]; simpl; [reflexivity|].
  rewrite H. exact IH.
Qed.

Lemma metrics_block_checkpoints (config : Config) (o : BatchObs) (e : Z)
  (i : nat) (s : State) (avg : Q) :
  filter is_save_checkpoint (metrics_block_events config o e i s avg)
  = [SaveCheckpoint (wandb_step s)
       (if Qltb (rmse (metrics o)) (best_rmse s) then true else is_best s)
       true].
Proof.
  unfold metrics_block_events.
  rewrite !filter_app.
  rewrite !metrics_log_entries_filter by reflexivity.
  destruct (Qltb (rmse (metrics o)) (best_rmse s));
    destruct (Qltb (rmse (test_metrics o)) (best_test_rmse s)); reflexivity.
Qed.

(** C8.  When the validation RMSE of a metrics block is below
    [best_test_rmse], the branch of lines 124-126 records the value in the
    run summary and in [best_test_rmse] and touches nothing else: it emits
    that one summary event -- no checkpoint call, no optimizer step -- and
    leaves [best_rmse], the best-flag, the schedule, the step counter, the
    accumulators and the ETA as they were.  In the block as a whole the
    only [save_checkpoint] call comes before that branch, and its [is_best]
    argument and the new [best_rmse] depend on the training RMSE alone. *)
Theorem C8_validation_best_frame (config : Config) (world : World) (e : Z)
  (i : nat) (s : State) :
  let o := observe world e i in
  let r := rmse (test_metrics o) in
  let s1 := snd (track_best_test (test_metrics o) s) in
  let s2 := snd (metrics_log_block config world e i s) in
  Qltb r (best_test_rmse s) = true ->
  fst (metrics_log_block config world e i s) = Ok tt ->
  (fst (track_best_test (test_metrics o) s) = Ok tt
   /\ events s1 = SummarySet "best_test_rmse" r :: events s
   /\ best_test_rmse s1 = r
   /\ best_rmse s1 = best_rmse s
   /\ is_best s1 = is_best s
   /\ lr_scheduler s1 = lr_scheduler s
   /\ wandb_step s1 = wandb_step s
   /\ accumulated_per_pixel_loss s1 = accumulated_per_pixel_loss s
   /\ accumulated_feature_loss s1 = accumulated_feature_loss s
   /\ accumulated_iteration_time s1 = accumulated_iteration_time s
   /\ eta s1 = eta s)
  /\ (filter is_save_checkpoint (events_since s s2)
      = [SaveCheckpoint (wandb_step s)
           (if Qltb (rmse (metrics o)) (best_rmse s) then true
            else is_best s) true]
      /\ hd_error (events s2) = Some (SummarySet "best_test_rmse" r)
      /\ best_test_rmse s2 = r
      /\ best_rmse s2
         = (if Qltb (rmse (metrics o)) (best_rmse s) then rmse (metrics o)
            else best_rmse s)).
Proof.
  intros o r s1 s2 Hlt Hok. split.
  - subst s1. unfold track_best_test, bind, gets, emit, modify.
    fold r. rewrite Hlt. simpl. repeat split.
  - subst s2. revert Hok. rewrite metrics_log_block_eq.
    destruct (RunningAverage.read (accumulated_iteration_time s))
      as [avg|x]; [intros _|discriminate].
    cbn [snd]. fold o.
    rewrite (events_since_extended s
               (metrics_block_state config o e i s avg)
               (metrics_block_events config o e i s avg) eq_refl).
    split; [apply metrics_block_checkpoints|].
    unfold metrics_block_state, metrics_block_events.
    cbn [events best_test_rmse best_rmse]. fold r. rewrite Hlt.
    repeat split.
    repeat (rewrite rev_app_distr; cbn [rev app]). reflexivity.
Qed.

(** C8 at a sample input: the first metrics block of a run, where the
    validation RMSE 5 is below the sentinel. *)
Lemma C8_validation_best_frame_witness :
  let s := state_at completed_loss_line_format (sample_config 0 1 1 1)
             (sample_world 2) false 3 in
  let m := test_metrics (sample_obs 0 0) in
  Qltb (rmse m) (best_test_rmse s) = true
  /\ events (snd (track_best_test m s))
     = SummarySet "best_test_rmse" (rmse m) :: events s
  /\ best_rmse (snd (track_best_test m s)) = best_rmse s
  /\ filter is_save_checkpoint
       (events_since s
          (snd (metrics_log_block (sample_config 0 1 1 1) (sample_world 2)
                  0 0 s)))
     = [SaveCheckpoint 0 true true].
Proof.
  intros s m.
  assert (H1 : Qltb (rmse m) (best_test_rmse s) = true)
    by (vm_compute; reflexivity).
  assert (H2 : fst (metrics_log_block (sample_config 0 1 1 1)
                      (sample_world 2) 0 0 s) = Ok tt)
    by (vm_compute; reflexivity).
  pose proof (C8_validation_best_frame (sample_config 0 1 1 1)
                (sample_world 2) 0 0 s H1 H2) as [Hb Hk].
  split; [exact H1|].
  split; [apply Hb|]. split; [apply Hb|].
  destruct Hk as [Hk _]. rewrite Hk. vm_compute. reflexivity.
Defined.

(** ** The loss line *)

(** C5: the code on the one-epoch scenario.  One epoch over four samples
    in two batches of two: the first batch goes through the network and the
    optimizer, then formatting the loss line of line 99 raises [TypeError]
    -- the string has four conversion specifiers for five values -- so the
    second batch is never processed, the schedule is never stepped and no
    epoch checkpoint is written. *)
Theorem C5_one_epoch_run :
  let r := train_and_evaluate (sample_config 0 1 1 1) (sample_world 2) false in
  conversions loss_line_format = 4%nat
  /\ fst r = Raise TypeError
  /\ history (snd r)
     = [Forward 0 0; Backward 0 0; OptimizerStep 0 0; Print Timestamp]
  /\ count_events is_forward (history (snd r)) = 1%nat
  /\ count_events is_backward (history (snd r)) = 1%nat
  /\ count_events is_optimizer_step (history (snd r)) = 1%nat
  /\ count_events is_scheduler_step (history (snd r)) = 0%nat
  /\ flat_map save_epoch_of (history (snd r)) = [].
Proof. vm_compute. repeat split. Qed.

(** C7: the code with [training_loss_log_interval = 1].  The first batch is
    trained on, the loss-log block is entered, and line 99 raises before
    either [wandb.log] call of lines 100-101: the batch gets no scalar-log
    event for either loss, and the run ends there. *)
Theorem C7_loss_log_every_batch :
  let c := sample_config 0 1 1 1 in
  let r := train_and_evaluate c (sample_world 2) false in
  training_loss_log_interval c = 1
  /\ fst r = Raise TypeError
  /\ forwards (history (snd r)) = [(0, 0%nat)]
  /\ count_events (is_log_of "Average per-pixel loss") (history (snd r))
     = 0%nat
  /\ count_events (is_log_of "Average feature loss") (history (snd r))
     = 0%nat
  /\ percent_format loss_line_format 5 = Raise TypeError.
Proof. vm_compute. repeat split. Qed.

(** C10: the code with positive intervals (here 100 and 250) and epochs of
    three batches.  Iteration 0 passes the test of line 97, as 0 mod n = 0,
    and the loss line then raises: the run ends in its first epoch with no
    training-loss log, no validation pass, no metric or image log and no
    [save_checkpoint] call. *)
Theorem C10_first_batch_of_an_epoch :
  let c := sample_config 0 2 100 250 in
  let r := train_and_evaluate c (sample_world 3) false in
  py_mod 0 (training_loss_log_interval c) = Ok 0
  /\ py_mod 0 (other_metrics_log_interval c) = Ok 0
  /\ fst r = Raise TypeError
  /\ forwards (history (snd r)) = [(0, 0%nat)]
  /\ count_events is_wandb_log (history (snd r)) = 0%nat
  /\ count_events is_evaluate (history (snd r)) = 0%nat
  /\ count_events is_save_checkpoint (history (snd r)) = 0%nat.
Proof. vm_compute. repeat split. Qed.

Lemma only_started_startup (config : Config) (local : bool) :
  preserves only_started (startup config local).
Proof.
  unfold startup, scheduler_step.
  keep_with ltac:(intros ? ?; constructor;
                  [first [left; reflexivity | right; reflexivity]
                  |assumption])
            ltac:(intros ? ?; assumption).
Qed.

(** The first batch of an epoch: it is trained on, and the loss-log block
    that follows does not return. *)
Lemma first_iteration_raises (config : Config) (world : World) (e : Z)
  (s : State) :
  exists x s',
    iteration_body loss_line_format config world e 0 s = (Raise x, s')
    /\ (history s'
        = history s ++ [Forward e 0; Backward e 0; OptimizerStep e 0]
        \/ history s'
           = history s ++ [Forward e 0; Backward e 0; OptimizerStep e 0;
                           Print Timestamp]).
Proof.
  unfold iteration_body, bind. rewrite train_step_eq. cbv zeta.
  set (s1 := train_step_state (observe world e 0) e 0 s).
  assert (H1 : history s1
               = history s ++ [Forward e 0; Backward e 0; OptimizerStep e 0])
    by apply train_step_history.
  destruct (RunningAverage.read (accumulated_iteration_time s1)) as [avg|x].
  2:{ exists x, s1. split; [reflexivity|left; exact H1]. }
  set (s2 := set_eta (Some (eta_of world 0 avg)) s1).
  assert (H2 : history s2
               = history s ++ [Forward e 0; Backward e 0; OptimizerStep e 0])
    by exact H1.
  unfold loss_log, bind, lift, py_mod.
  destruct (training_loss_log_interval config =? 0).
  { exists ZeroDivisionError, s2. split; [reflexivity|left; exact H2]. }
  change (Z.of_nat 0) with 0. rewrite Zmod_0_l. simpl (0 =? 0).
  cbv iota. rewrite loss_log_block_eq, loss_line_fails.
  assert (H3 : history (add_events [Print Timestamp] s2)
               = history s ++ [Forward e 0; Backward e 0; OptimizerStep e 0;
                               Print Timestamp]).
  { rewrite (history_extended s2 (add_events [Print Timestamp] s2)
               [Print Timestamp] eq_refl), H2, <- app_assoc.
    reflexivity. }
  destruct (RunningAverage.read (accumulated_per_pixel_loss s2)) as [a|x];
    [destruct (RunningAverage.read (accumulated_feature_loss s2)) as [b|x]|];
    eexists; eexists; (split; [reflexivity|right; exact H3]).
Qed.

Lemma py_range2_first (a b : Z) :
  a < b -> exists rest, py_range2 a b = a :: rest.
Proof.
  intro H. unfold py_range2.
  destruct (Z.to_nat (b - a)) as [|n] eqn:E; [lia|].
  simpl. rewrite Z.add_0_r. eauto.
Qed.

(** Whatever the configuration and the data, a run that has an epoch to go
    through and a batch to train on ends in the loss-log block of its first
    batch: after one pass through the network and the optimizer, with
    nothing logged, validated or saved. *)
Theorem loss_line_stops_the_run (config : Config) (world : World)
  (local : bool) :
  start_epoch config < epochs config ->
  num_batches world <> 0%nat ->
  fst (state_before_training config world local) = Ok tt ->
  let r := train_and_evaluate config world local in
  (exists x, fst r = Raise x)
  /\ forwards (history (snd r)) = [(start_epoch config, 0%nat)]
  /\ count_events is_wandb_log (history (snd r)) = 0%nat
  /\ count_events is_evaluate (history (snd r)) = 0%nat
  /\ count_events is_save_checkpoint (history (snd r)) = 0%nat
  /\ flat_map save_epoch_of (history (snd r)) = [].
Proof.
  intros Hep Hnb Hstart r. subst r.
  unfold train_and_evaluate, train_and_evaluate_with, bind.
  unfold state_before_training in Hstart.
  pose proof (only_started_startup config local
                (initial_state config world) (Forall_nil _)) as Hs.
  destruct (startup config local (initial_state config world))
    as [[[]|x] s0]; [|discriminate]. simpl in Hs.
  unfold main_loop.
  destruct (py_range2_first _ _ Hep) as [rest ->].
  simpl for_. unfold bind at 1. unfold train_epoch, bind. simpl epoch_begin.
  unfold epoch_begin, modify.
  destruct (num_batches world) as [|n]; [congruence|].
  simpl seq. simpl for_. unfold bind.
  destruct (first_iteration_raises config world (start_epoch config)
              (set_wandb_step (wandb_step s0 + 1) s0))
    as (x & s' & -> & Hh).
  simpl fst. simpl snd.
  assert (Hq : forall (p : Event -> bool),
             (forall e, startup_event e -> p e = false) ->
             filter p (history s0) = []).
  { intros p Hp. unfold history.
    assert (F : Forall startup_event (rev (events s0)))
      by (apply Forall_rev, Hs).
    induction F as [|e l He _ IH]; simpl; [reflexivity|].
    rewrite (Hp e He). exact IH. }
  assert (Hf : forall (B : Type) (f : Event -> list B),
             (forall e, startup_event e -> f e = []) ->
             flat_map f (history s0) = []).
  { intros B f Hp. apply flat_map_nil_on. unfold history.
    eapply Forall_impl; [|apply Forall_rev, Hs]. exact Hp. }
  change (history (set_wandb_step (wandb_step s0 + 1) s0))
    with (history s0) in Hh.
  unfold count_events, forwards.
  split; [eauto|].
  destruct Hh as [-> | ->];
    rewrite !filter_app, !flat_map_app, !Hq, !Hf;
    try (intros e [-> | ->]; reflexivity);
    repeat split.
Qed.

(** The preceding theorem at a sample input: a resumed run over epochs
    3 and 4, three batches per epoch. *)
Lemma loss_line_stops_the_run_witness :
  let r := train_and_evaluate (sample_config 3 5 10 10) (sample_world 3) true
  in
  (exists x, fst r = Raise x)
  /\ forwards (history (snd r)) = [(3, 0%nat)]
  /\ count_events is_wandb_log (history (snd r)) = 0%nat.
Proof.
  destruct (loss_line_stops_the_run (sample_config 3 5 10 10)
              (sample_world 3) true) as (H1 & H2 & H3 & _).
  - simpl. lia.
  - simpl. discriminate.
  - vm_compute. reflexivity.
  - split; [exact H1|]. split; [exact H2|exact H3].
Defined.

(** ** Order of the batches and of the epoch checkpoints *)

Lemma contributes_ret {A B : Type} (proj : Event -> list B) (a : A) :
  contributes proj [] (ret a).
Proof.
  intro s. exists [], []. simpl. rewrite app_nil_r. repeat split.
Qed.

Lemma contributes_bind {A C B : Type} (proj : Event -> list B)
  (g1 g2 : list B) (m : M State A) (k : A -> M State C) :
  contributes proj g1 m -> (forall a, contributes proj g2 (k a)) ->
  contributes proj (g1 ++ g2) (bind m k).
Proof.
  intros Hm Hk s. destruct (Hm s) as (p1 & q1 & E1 & H1 & F1).
  unfold bind. destruct (m s) as [[a|x] s1]; simpl in *.
  - rewrite (F1 a eq_refl), app_nil_r in E1. subst g1.
    destruct (Hk a s1) as (p2 & q2 & E2 & H2 & F2).
    exists (p1 ++ p2), q2. repeat split.
    + rewrite E2, app_assoc. reflexivity.
    + rewrite H2, H1, app_assoc. reflexivity.
    + exact F2.
  - exists p1, (q1 ++ g2). repeat split.
    + rewrite E1, app_assoc. reflexivity.
    + exact H1.
    + intros a' C0. discriminate.
Qed.

Lemma contributes_for {A B : Type} (proj : Event -> list B)
  (g : A -> list B) (xs : list A) (body : A -> M State unit) :
  (forall x, contributes proj (g x) (body x)) ->
  contributes proj (flat_map g xs) (for_ xs body).
Proof.
  intro H. induction xs as [|x rest IH]; simpl.
  - apply contributes_ret.
  - apply contributes_bind; [apply H|intros _; exact IH].
Qed.

Lemma contributes_silent {A B : Type} (proj : Event -> list B)
  (m : M State A) :
  (forall l, preserves (reads_as proj l) m) -> contributes proj [] m.
Proof.
  intros H s. exists [], []. split; [reflexivity|]. split; [|reflexivity].
  rewrite app_nil_r.
  apply (H (flat_map proj (history s)) s). reflexivity.
Qed.

Lemma contributes_eq {A B : Type} (proj : Event -> list B) (g g' : list B)
  (m : M State A) :
  g = g' -> contributes proj g m -> contributes proj g' m.
Proof. intros <- H; exact H. Qed.

Lemma reads_as_emit {B : Type} (proj : Event -> list B) (l : list B)
  (e : Event) :
  proj e = [] -> preserves (reads_as proj l) (emit e).
Proof.
  intros He s H. unfold reads_as in *. simpl.
  rewrite projection_record_event, He, app_nil_r. exact H.
Qed.

Lemma reads_as_modify {B : Type} (proj : Event -> list B) (l : list B)
  (f : State -> State) :
  (forall s, events (f s) = events s) ->
  preserves (reads_as proj l) (modify f).
Proof.
  intros Hf s H. unfold reads_as, history in *. simpl.
  rewrite Hf. exact H.
Qed.

Ltac keep_reading :=
  keep_with ltac:(apply reads_as_emit; reflexivity)
            ltac:(apply reads_as_modify; intro; reflexivity).

Ltac unfold_blocks :=
  unfold iteration_body, train_step, loss_log, loss_log_block, metrics_log,
    metrics_log_block, epoch_begin, epoch_end, startup, scheduler_step,
    read_of, write_metrics, compare_predictions, track_best_train,
    track_best_test.

Lemma train_step_contributes (world : World) (e : Z) (i : nat) :
  contributes forward_of [(e, i)] (train_step world e i).
Proof.
  intro s. exists [(e, i)], []. repeat split.
  rewrite train_step_eq. cbv zeta.
  assert (H : flat_map forward_of
                (history (train_step_state (observe world e i) e i s))
              = flat_map forward_of (history s) ++ [(e, i)]).
  { rewrite train_step_history, flat_map_app. reflexivity. }
  destruct (RunningAverage.read _); exact H.
Qed.

Lemma iteration_contributes (fmt : string) (config : Config) (world : World)
  (e : Z) (i : nat) :
  contributes forward_of [(e, i)] (iteration_body fmt config world e i).
Proof.
  unfold iteration_body.
  apply (contributes_eq forward_of ([(e, i)] ++ [] ++ [])); [reflexivity|].
  apply contributes_bind; [apply train_step_contributes|]. intros _.
  apply contributes_bind; intros; apply contributes_silent; intro l;
    unfold_blocks; keep_reading.
Qed.

Lemma flat_map_singleton {A B : Type} (f : A -> B) (xs : list A) :
  flat_map (fun x => [f x]) xs = map f xs.
Proof. induction xs as [|x rest IH]; simpl; congruence. Qed.

Lemma epoch_contributes_batches (fmt : string) (config : Config)
  (world : World) (e : Z) :
  contributes forward_of (map (pair e) (seq 0 (num_batches world)))
    (train_epoch fmt config world e).
Proof.
  unfold train_epoch.
  apply (contributes_eq forward_of
           ([] ++ flat_map (fun i => [(e, i)]) (seq 0 (num_batches world))
               ++ [])).
  { simpl. rewrite app_nil_r. apply flat_map_singleton. }
  apply contributes_bind.
  { apply contributes_silent; intro l; unfold_blocks; keep_reading. }
  intros _. apply contributes_bind.
  { apply contributes_for. intro i. apply iteration_contributes. }
  intros _. apply contributes_silent; intro l; unfold_blocks; keep_reading.
Qed.

Lemma epoch_end_history (e : Z) (s : State) :
  history (snd (epoch_end e s))
  = history s
    ++ match fst (epoch_end e s) with
       | Ok _ => [Print (EpochComplete e); LrSchedulerStep; EmptyCache;
                  SaveEpoch e]
       | Raise _ => [Print (EpochComplete e); LrSchedulerStep]
       end.
Proof.
  rewrite epoch_end_eq.
  destruct (StepLR.step (lr_scheduler s)); simpl;
    apply history_extended; reflexivity.
Qed.

Lemma epoch_contributes_checkpoint (fmt : string) (config : Config)
  (world : World) (e : Z) :
  contributes save_epoch_of [e] (train_epoch fmt config world e).
Proof.
  unfold train_epoch.
  apply (contributes_eq save_epoch_of ([] ++ [] ++ [e])); [reflexivity|].
  apply contributes_bind.
  { apply contributes_silent; intro l; unfold_blocks; keep_reading. }
  intros _. apply contributes_bind.
  { apply contributes_silent; intro l. apply preserves_for. intros i _.
    unfold_blocks; keep_reading. }
  intros _ s. rewrite epoch_end_history, flat_map_app.
  destruct (fst (epoch_end e s)) as [[]|x] eqn:E.
  - exists [e], []. repeat split.
  - exists [], [e]. repeat split. intros a C0. discriminate.
Qed.

Lemma run_contributes {B : Type} (proj : Event -> list B) (g : Z -> list B)
  (fmt : string) (config : Config) (world : World) (local : bool) :
  (forall l, preserves (reads_as proj l) (startup config local)) ->
  (forall e, contributes proj (g e) (train_epoch fmt config world e)) ->
  let r := train_and_evaluate_with fmt config world local in
  exists p q,
    flat_map g (py_range2 (start_epoch config) (epochs config)) = p ++ q
    /\ flat_map proj (history (snd r)) = p
    /\ (fst r = Ok tt -> q = []).
Proof.
  intros Hs He r.
  assert (H : contributes proj
                ([] ++ flat_map g
                         (py_range2 (start_epoch config) (epochs config)))
                (startup config local ;; main_loop fmt config world)).
  { apply contributes_bind; [apply contributes_silent, Hs|].
    intros _. unfold main_loop. apply contributes_for, He. }
  destruct (H (initial_state config world)) as (p & q & E & Hh & F).
  exists p, q. repeat split.
  - exact E.
  - exact Hh.
  - intro Hok. apply (F tt). exact Hok.
Qed.

(** Every run trains on the batches in the order of the two loops, none
    skipped and none twice, up to the batch at which it stops; a run that
    returns has trained on each batch of each epoch exactly once.  Each
    forward pass has its backward pass and its optimizer step. *)
Theorem batches_trained_in_order (fmt : string) (config : Config)
  (world : World) (local : bool) :
  let r := train_and_evaluate_with fmt config world local in
  (exists rest,
      batch_schedule config world = forwards (history (snd r)) ++ rest)
  /\ (fst r = Ok tt ->
      forwards (history (snd r)) = batch_schedule config world)
  /\ count_events is_backward (history (snd r))
     = count_events is_forward (history (snd r))
  /\ count_events is_optimizer_step (history (snd r))
     = count_events is_forward (history (snd r)).
Proof.
  intro r.
  destruct (run_contributes forward_of
              (fun e => map (pair e) (seq 0 (num_batches world)))
              fmt config world local) as (p & q & E & Hh & F).
  { intro l. unfold_blocks. keep_reading. }
  { intro e. apply epoch_contributes_batches. }
  fold r in Hh, F. unfold forwards, batch_schedule.
  split; [exists q; rewrite Hh; exact E|].
  split; [intro Hok; rewrite Hh, E, (F Hok), app_nil_r; reflexivity|].
  pose (balanced := fun s : State =>
          count_events is_backward (history s)
          = count_events is_forward (history s)
          /\ count_events is_optimizer_step (history s)
             = count_events is_forward (history s)).
  assert (Hemit : forall e,
             is_forward e = false -> is_backward e = false ->
             is_optimizer_step e = false -> preserves balanced (emit e)).
  { intros e E1 E2 E3 s [H1 H2]. unfold balanced, count_events, history in *.
    simpl. rewrite !filter_app. simpl. rewrite E1, E2, E3, !app_nil_r.
    split; assumption. }
  assert (Hmod : forall f, (forall s, events (f s) = events s) ->
                           preserves balanced (modify f)).
  { intros f Hf s H. unfold balanced, history in *. simpl. rewrite Hf.
    exact H. }
  assert (Htrain : forall e i, preserves balanced (train_step world e i)).
  { intros e i s [H1 H2]. rewrite train_step_eq. cbv zeta.
    assert (H : balanced (train_step_state (observe world e i) e i s)).
    { unfold balanced, count_events. rewrite train_step_history.
      rewrite !filter_app, !length_app. simpl.
      unfold count_events in H1, H2. rewrite H1, H2. split; reflexivity. }
    destruct (RunningAverage.read _); exact H. }
  assert (Hall : balanced (snd r)).
  { subst r. unfold train_and_evaluate_with.
    apply (preserves_bind balanced).
    - unfold_blocks.
      keep_with ltac:(apply Hemit; reflexivity)
                ltac:(apply Hmod; intro; reflexivity).
    - intros _. unfold main_loop. apply preserves_for. intros e _.
      unfold train_epoch.
      apply preserves_bind; [|intros _; apply preserves_bind].
      + unfold_blocks.
        keep_with ltac:(apply Hemit; reflexivity)
                  ltac:(apply Hmod; intro; reflexivity).
      + apply preserves_for. intros i _. unfold iteration_body.
        apply preserves_bind; [apply Htrain|]. intros _.
        unfold_blocks.
        keep_with ltac:(apply Hemit; reflexivity)
                  ltac:(apply Hmod; intro; reflexivity).
      + intros _. unfold_blocks.
        keep_with ltac:(apply Hemit; reflexivity)
                  ltac:(apply Hmod; intro; reflexivity).
    - split; reflexivity. }
  exact Hall.
Qed.

(** The epoch checkpoints of a run are written for the epochs of
    [range(start_epoch, epochs)] in increasing order, one per epoch that
    was completed; a run that returns has written one for every epoch of
    the range, and none for any other index. *)
Theorem epoch_checkpoints_in_order (fmt : string) (config : Config)
  (world : World) (local : bool) :
  let r := train_and_evaluate_with fmt config world local in
  let saved := flat_map save_epoch_of (history (snd r)) in
  (exists rest,
      py_range2 (start_epoch config) (epochs config) = saved ++ rest)
  /\ (fst r = Ok tt ->
      saved = py_range2 (start_epoch config) (epochs config)).
Proof.
  intros r saved.
  destruct (run_contributes save_epoch_of (fun e => [e])
              fmt config world local) as (p & q & E & Hh & F).
  { intro l. unfold_blocks. keep_reading. }
  { intro e. apply epoch_contributes_checkpoint. }
  fold r in Hh, F. fold saved in Hh.
  rewrite flat_map_singleton, map_id in E.
  split; [exists q; rewrite Hh; exact E|].
  intro Hok. rewrite Hh, E, (F Hok), app_nil_r. reflexivity.
Qed.

(** Witnesses of the two preceding theorems: two epochs of two batches with
    the loss line completed, and two epochs over an empty training set with
    the loss line of the source. *)
Lemma batches_trained_in_order_witness :
  forwards
    (history
       (snd (train_and_evaluate_with completed_loss_line_format
               (sample_config 0 2 1 1) (sample_world 2) false)))
  = [(0, 0%nat); (0, 1%nat); (1, 0%nat); (1, 1%nat)].
Proof.
  destruct (batches_trained_in_order completed_loss_line_format
              (sample_config 0 2 1 1) (sample_world 2) false)
    as (_ & H & _).
  rewrite H; vm_compute; reflexivity.
Defined.

Lemma epoch_checkpoints_in_order_witness :
  flat_map save_epoch_of
    (history
       (snd (train_and_evaluate_with loss_line_format
               (sample_config 3 5 1 1) (sample_world 0) true)))
  = [3; 4].
Proof.
  destruct (epoch_checkpoints_in_order loss_line_format
              (sample_config 3 5 1 1) (sample_world 0) true) as (_ & H).
  rewrite H; vm_compute; reflexivity.
Defined.

(** ** An empty training set *)

Lemma step_defined (s : StepLR.t) :
  StepLR.step_size s <> 0 ->
  exists s', StepLR.step s = Ok s'
             /\ StepLR.step_size s' = StepLR.step_size s.
Proof.
  intro H. unfold StepLR.step, py_mod.
  destruct (StepLR.last_epoch s + 1 =? 0); [eexists; split; reflexivity|].
  apply Z.eqb_neq in H. rewrite H.
  destruct (negb _); eexists; split; reflexivity.
Qed.

Lemma scheduler_loop_defined {A : Type} (xs : list A) (s : State) :
  StepLR.step_size (lr_scheduler s) <> 0 ->
  exists s',
    for_ xs (fun _ => scheduler_step) s = (Ok tt, s')
    /\ history s' = history s ++ repeat LrSchedulerStep (List.length xs)
    /\ StepLR.step_size (lr_scheduler s') = StepLR.step_size (lr_scheduler s)
    /\ wandb_step s' = wandb_step s.
Proof.
  revert s; induction xs as [|x rest IH]; intros s H; simpl.
  - exists s. rewrite app_nil_r. repeat split.
  - unfold bind. rewrite scheduler_step_eq.
    destruct (step_defined _ H) as (sch & -> & Hk).
    destruct (IH (set_lr_scheduler sch (add_events [LrSchedulerStep] s)))
      as (s' & E & Hh & Hs & Hw).
    { simpl. rewrite Hk. exact H. }
    exists s'. split; [exact E|]. split; [|split].
    + rewrite Hh.
      rewrite (history_extended s
                 (set_lr_scheduler sch (add_events [LrSchedulerStep] s))
                 [LrSchedulerStep] eq_refl), <- app_assoc.
      reflexivity.
    + rewrite Hs. simpl. exact Hk.
    + rewrite Hw. reflexivity.
Qed.

Lemma empty_epoch (fmt : string) (config : Config) (world : World) (e : Z)
  (s : State) :
  num_batches world = 0%nat ->
  StepLR.step_size (lr_scheduler s) <> 0 ->
  exists s',
    train_epoch fmt config world e s = (Ok tt, s')
    /\ history s' = history s ++ epoch_end_events e
    /\ StepLR.step_size (lr_scheduler s') = StepLR.step_size (lr_scheduler s)
    /\ wandb_step s' = wandb_step s + 1.
Proof.
  intros Hn Hk. unfold train_epoch, bind, epoch_begin, modify.
  rewrite Hn. simpl for_. unfold ret. rewrite epoch_end_eq. simpl lr_scheduler.
  destruct (step_defined _ Hk) as (sch & -> & Hk').
  eexists. split; [reflexivity|]. split; [|split].
  - apply history_extended. reflexivity.
  - exact Hk'.
  - reflexivity.
Qed.

Lemma empty_epochs (fmt : string) (config : Config) (world : World)
  (es : list Z) (s : State) :
  num_batches world = 0%nat ->
  StepLR.step_size (lr_scheduler s) <> 0 ->
  exists s',
    for_ es (train_epoch fmt config world) s = (Ok tt, s')
    /\ history s' = history s ++ flat_map epoch_end_events es
    /\ wandb_step s' = wandb_step s + Z.of_nat (List.length es).
Proof.
  intro Hn. revert s; induction es as [|e rest IH]; intros s Hk.
  - exists s. simpl. rewrite app_nil_r, Z.add_0_r. repeat split.
  - cbn [for_ flat_map]. unfold bind.
    destruct (empty_epoch fmt config world e s Hn Hk)
      as (s1 & -> & Hh1 & Hk1 & Hw1).
    destruct (IH s1) as (s' & E & Hh & Hw); [rewrite Hk1; exact Hk|].
    exists s'. split; [exact E|]. split.
    + rewrite Hh, Hh1, <- app_assoc. reflexivity.
    + rewrite Hw, Hw1. cbn [List.length]. lia.
Qed.

(** With an empty training set the driver returns without an exception,
    whatever the loss line and the intervals: no accumulator is read, so
    nothing is divided by a zero count.  Each epoch of the range then only
    prints its completion line, steps the schedule, empties the cache and
    writes its epoch checkpoint; nothing is trained, logged or validated,
    and the accumulators, the trackers and the ETA stay as created. *)
Theorem empty_training_set_completes (fmt : string) (config : Config)
  (world : World) (local : bool) :
  num_batches world = 0%nat ->
  lr_scheduler_step_size config <> 0 ->
  let r := train_and_evaluate_with fmt config world local in
  fst r = Ok tt
  /\ history (snd r)
     = startup_events config local
       ++ flat_map epoch_end_events
            (py_range2 (start_epoch config) (epochs config))
  /\ wandb_step (snd r)
     = - 1 + Z.of_nat (Z.to_nat (epochs config - start_epoch config))
  /\ fresh_accumulators (snd r)
  /\ eta (snd r) = None
  /\ best_rmse (snd r) = sentinel
  /\ best_test_rmse (snd r) = sentinel.
Proof.
  intros Hn Hk r.
  assert (Hrun : fst r = Ok tt
                 /\ history (snd r)
                    = startup_events config local
                      ++ flat_map epoch_end_events
                           (py_range2 (start_epoch config) (epochs config))
                 /\ wandb_step (snd r)
                    = - 1 + Z.of_nat
                              (Z.to_nat (epochs config - start_epoch config))).
  { subst r. unfold train_and_evaluate_with, startup. unfold bind.
    set (s0 := if local
               then record_event LoadCheckpoint (initial_state config world)
               else initial_state config world).
    replace ((if local then emit LoadCheckpoint else ret tt)
               (initial_state config world)) with (Ok tt, s0)
      by (subst s0; destruct local; reflexivity).
    destruct (scheduler_loop_defined (py_range (start_epoch config)) s0)
      as (s1 & -> & Hh1 & Hk1 & Hw1).
    { subst s0; destruct local; exact Hk. }
    unfold main_loop.
    destruct (empty_epochs fmt config world
                (py_range2 (start_epoch config) (epochs config)) s1 Hn)
      as (s2 & -> & Hh2 & Hw2).
    { rewrite Hk1. subst s0; destruct local; exact Hk. }
    split; [reflexivity|]. split.
    - cbn [snd]. rewrite Hh2, Hh1. unfold startup_events, py_range.
      rewrite py_range2_length, Z.sub_0_r.
      subst s0; destruct local; reflexivity.
    - cbn [snd]. rewrite Hw2, Hw1, py_range2_length.
      replace (wandb_step s0)
        with (start_epoch config * Z.of_nat (num_batches world) - 1)
        by (subst s0; destruct local; reflexivity).
      rewrite Hn. simpl Z.of_nat. lia. }
  destruct Hrun as (Hok & Hh & Hw).
  assert (Hq : forall (B : Type) (f : Event -> list B),
             f LoadCheckpoint = [] -> f LrSchedulerStep = [] ->
             f EmptyCache = [] -> (forall l, f (Print l) = []) ->
             (forall e, f (SaveEpoch e) = []) ->
             flat_map f (history (snd r)) = []).
  { intros B f F1 F2 F3 F4 F5. rewrite Hh, flat_map_app.
    unfold startup_events. rewrite flat_map_app.
    assert (E1 : flat_map f (if local then [LoadCheckpoint] else []) = [])
      by (destruct local; simpl; rewrite ?F1; reflexivity).
    assert (E2 : forall n, flat_map f (repeat LrSchedulerStep n) = [])
      by (intro n; induction n; simpl; rewrite ?F2; auto).
    assert (E3 : forall es, flat_map f (flat_map epoch_end_events es) = []).
    { intro es; induction es as [|e es IH]; simpl; [reflexivity|].
      rewrite F4, F2, F3, F5, IH. reflexivity. }
    rewrite E1, E2, E3. reflexivity. }
  pose proof (timing_ok_run fmt config world local (program config world))
    as [[(A1 & A2 & A3) _] He].
  pose proof (trackers_ok_run fmt config world local (program config world))
    as (_ & T1 & T2 & _).
  rewrite <- train_and_evaluate_blocks in A1, A2, A3, He, T1, T2.
  fold r in A1, A2, A3, He, T1, T2.
  unfold per_pixel_calls, feature_calls, time_calls, forwards in A1, A2, A3.
  unfold eta_ok, latest_forward, forwards in He.
  unfold train_rmse_seen in T1. unfold test_rmse_seen in T2.
  rewrite Hq in A1, A2, A3, He, T1, T2 by reflexivity.
  repeat split; assumption.
Qed.

(** The preceding theorem on the driver as it is: two epochs, resumed at
    epoch 3, over an empty training set. *)
Lemma empty_training_set_completes_witness :
  let r := train_and_evaluate (sample_config 3 5 1 1) (sample_world 0) true in
  fst r = Ok tt
  /\ history (snd r)
     = [LoadCheckpoint; LrSchedulerStep; LrSchedulerStep; LrSchedulerStep;
        Print (EpochComplete 3); LrSchedulerStep; EmptyCache; SaveEpoch 3;
        Print (EpochComplete 4); LrSchedulerStep; EmptyCache; SaveEpoch 4]
  /\ wandb_step (snd r) = 1.
Proof.
  intro r. subst r. unfold train_and_evaluate.
  destruct (empty_training_set_completes loss_line_format
              (sample_config 3 5 1 1) (sample_world 0) true)
    as (H1 & H2 & H3 & _).
  - reflexivity.
  - simpl. discriminate.
  - split; [exact H1|]. split; [rewrite H2; reflexivity|].
    rewrite H3. reflexivity.
Defined.

(** ** Which exception ends the first batch *)

Lemma bind_raises {A B : Type} (m : M State A) (k : A -> M State B)
  (s : State) (x : Exn) :
  fst (m s) = Raise x -> fst (bind m k s) = Raise x.
Proof.
  unfold bind. destruct (m s) as [[a|y] s']; simpl; intro H;
    [discriminate H|injection H as ->; reflexivity].
Qed.

Lemma fresh_accumulators_startup (config : Config) (local : bool) :
  preserves fresh_accumulators (startup config local).
Proof.
  unfold_blocks.
  keep_with ltac:(intros ? ?; assumption) ltac:(intros ? ?; assumption).
Qed.

Lemma first_iteration_outcome (config : Config) (world : World) (e : Z)
  (s : State) :
  fresh_accumulators s ->
  batch_n (observe world e 0) <> 0%nat ->
  fst (iteration_body loss_line_format config world e 0 s)
  = Raise (if training_loss_log_interval config =? 0
           then ZeroDivisionError else TypeError).
Proof.
  intros (F1 & F2 & F3) Hb.
  unfold iteration_body, bind. rewrite train_step_eq. cbv zeta.
  unfold train_step_state at 1. cbn [accumulated_iteration_time].
  rewrite F3. unfold RunningAverage.read at 1. cbn [RunningAverage.update
    RunningAverage.init RunningAverage.count RunningAverage.total].
  change (0 + 1 =? 0) with false. cbv iota.
  unfold loss_log, bind, lift, py_mod.
  destruct (training_loss_log_interval config =? 0); [reflexivity|].
  change (Z.of_nat 0) with 0. rewrite Zmod_0_l. simpl (0 =? 0). cbv iota.
  rewrite loss_log_block_eq, loss_line_fails.
  cbn [set_eta train_step_state accumulated_per_pixel_loss
       accumulated_feature_loss].
  rewrite F1, F2. unfold RunningAverage.read.
  cbn [RunningAverage.update RunningAverage.init RunningAverage.count].
  assert (E : (0 + Z.of_nat (batch_n (observe world e 0)) =? 0) = false)
    by (apply Z.eqb_neq; lia).
  rewrite E. reflexivity.
Qed.

(** When the first batch has ended, the exception that ends the run is
    [ZeroDivisionError], from the test of line 97, if
    [training_loss_log_interval] is 0, and otherwise the [TypeError] of the
    loss line; the metrics interval and the rest of the configuration play
    no part. *)
Theorem first_batch_exception (config : Config) (world : World)
  (local : bool) :
  start_epoch config < epochs config ->
  num_batches world <> 0%nat ->
  batch_n (observe world (start_epoch config) 0) <> 0%nat ->
  fst (state_before_training config world local) = Ok tt ->
  fst (train_and_evaluate config world local)
  = Raise (if training_loss_log_interval config =? 0
           then ZeroDivisionError else TypeError).
Proof.
  intros Hep Hnb Hb Hstart.
  unfold train_and_evaluate, train_and_evaluate_with, bind.
  unfold state_before_training in Hstart.
  pose proof (fresh_accumulators_startup config local
                (initial_state config world)) as Hf.
  destruct (startup config local (initial_state config world))
    as [[[]|x] s0]; [|discriminate].
  specialize (Hf (conj eq_refl (conj eq_refl eq_refl))). simpl in Hf.
  unfold main_loop.
  destruct (py_range2_first _ _ Hep) as [rest ->].
  cbn [for_]. apply bind_raises.
  unfold train_epoch. unfold bind at 1. unfold epoch_begin, modify.
  apply bind_raises.
  destruct (num_batches world) as [|n]; [congruence|].
  cbn [seq for_]. apply bind_raises.
  apply first_iteration_outcome; assumption.
Qed.

Lemma first_batch_exception_witness :
  fst (train_and_evaluate (sample_config 0 1 0 1) (sample_world 2) false)
  = Raise ZeroDivisionError
  /\ fst (train_and_evaluate (sample_config 0 1 7 0) (sample_world 2) false)
     = Raise TypeError.
Proof.
  split.
  - rewrite (first_batch_exception (sample_config 0 1 0 1) (sample_world 2)
               false); [reflexivity|simpl; lia|discriminate|discriminate
                       |reflexivity].
  - rewrite (first_batch_exception (sample_config 0 1 7 0) (sample_world 2)
               false); [reflexivity|simpl; lia|discriminate|discriminate
                       |reflexivity].
Defined.

(** ** One step per epoch *)

Lemma epoch_steps_extend (c : Z) (older : list Event) (s s' : State)
  (new : list Event) :
  epoch_steps c older s ->
  wandb_step s' = wandb_step s ->
  events s' = rev new ++ events s ->
  Forall (fun st => st = c) (log_steps new) ->
  Forall (fun st => st = c) (flat_map checkpoint_iteration_of new) ->
  epoch_steps c older s'.
Proof.
  intros (Hw & es & He & H1 & H2) Ew Ee N1 N2. split; [congruence|].
  exists (es ++ new). split; [|split].
  - rewrite Ee, He, rev_app_distr, app_assoc. reflexivity.
  - unfold log_steps in *. rewrite flat_map_app.
    apply Forall_app; split; assumption.
  - rewrite flat_map_app. apply Forall_app; split; assumption.
Qed.

Lemma epoch_steps_emit (c : Z) (older : list Event) (e : Event) :
  log_step_of e = [] -> checkpoint_iteration_of e = [] ->
  preserves (epoch_steps c older) (emit e).
Proof.
  intros E1 E2 s H. simpl.
  apply (epoch_steps_extend c older s _ [e] H); try reflexivity.
  - unfold log_steps; simpl. rewrite E1. constructor.
  - simpl. rewrite E2. constructor.
Qed.

Lemma epoch_steps_modify (c : Z) (older : list Event) (f : State -> State) :
  (forall s, wandb_step (f s) = wandb_step s /\ events (f s) = events s) ->
  preserves (epoch_steps c older) (modify f).
Proof.
  intros Hf s H. simpl. destruct (Hf s) as [E1 E2].
  apply (epoch_steps_extend c older s _ [] H); auto; constructor.
Qed.

Ltac keep_epoch_steps :=
  keep_with ltac:(apply epoch_steps_emit; reflexivity)
            ltac:(apply epoch_steps_modify; intro; split; reflexivity).

Lemma metrics_block_iterations (config : Config) (o : BatchObs) (e : Z)
  (i : nat) (s : State) (avg : Q) :
  flat_map checkpoint_iteration_of (metrics_block_events config o e i s avg)
  = [wandb_step s].
Proof.
  unfold metrics_block_events.
  repeat (rewrite flat_map_app).
  rewrite !metrics_log_entries_project by reflexivity.
  destruct (Qltb (rmse (metrics o)) (best_rmse s));
    destruct (Qltb (rmse (test_metrics o)) (best_test_rmse s)); reflexivity.
Qed.

Lemma epoch_steps_iteration (c : Z) (older : list Event) (fmt : string)
  (config : Config) (world : World) (e : Z) (i : nat) :
  preserves (epoch_steps c older) (iteration_body fmt config world e i).
Proof.
  unfold iteration_body.
  apply preserves_bind; [unfold_blocks; keep_epoch_steps|]. intros _.
  apply preserves_bind.
  - unfold loss_log. apply preserves_bind; [apply preserves_lift|].
    intro r. destruct (r =? 0); [|apply preserves_ret].
    intros s H. rewrite loss_log_block_eq.
    assert (Hq : forall new,
               Forall (fun st => st = c) (log_steps new) ->
               flat_map checkpoint_iteration_of new = [] ->
               epoch_steps c older (add_events new s)).
    { intros new N1 N2.
      apply (epoch_steps_extend c older s _ new H); try reflexivity;
        [exact N1|rewrite N2; constructor]. }
    destruct H as [Hw _].
    destruct (RunningAverage.read (accumulated_per_pixel_loss s));
      [|apply Hq; [constructor|reflexivity]].
    destruct (RunningAverage.read (accumulated_feature_loss s));
      [|apply Hq; [constructor|reflexivity]].
    destruct (percent_format fmt 5) as [[]|x];
      (apply Hq; [|reflexivity]); simpl; rewrite ?Hw; repeat constructor.
  - intros _. unfold metrics_log.
    apply preserves_bind; [apply preserves_lift|].
    intro r. destruct (r =? 0); [|apply preserves_ret].
    intros s H. rewrite metrics_log_block_eq.
    destruct (RunningAverage.read _) as [avg|x]; [|exact H].
    pose proof H as [Hw _].
    apply (epoch_steps_extend c older s _
             (metrics_block_events config (observe world e i) e i s avg) H);
      try reflexivity.
    + rewrite <- Hw. apply metrics_block_steps.
    + rewrite metrics_block_iterations, Hw. repeat constructor.
Qed.

Lemma train_epoch_steps (fmt : string) (config : Config) (world : World)
  (e : Z) (s : State) :
  epoch_steps (wandb_step s + 1) (events s)
    (snd (train_epoch fmt config world e s)).
Proof.
  unfold train_epoch. unfold bind at 1. unfold epoch_begin, modify.
  assert (H0 : epoch_steps (wandb_step s + 1) (events s)
                 (set_wandb_step (wandb_step s + 1) s)).
  { split; [reflexivity|]. exists []. repeat split; constructor. }
  revert H0. generalize (set_wandb_step (wandb_step s + 1) s). intros s1 H0.
  apply (preserves_bind (epoch_steps (wandb_step s + 1) (events s)));
    [| |exact H0].
  - apply preserves_for. intros i _. apply epoch_steps_iteration.
  - intros _. unfold_blocks. keep_epoch_steps.
Qed.

(** All [wandb.log] calls and all [save_checkpoint] calls made while one
    epoch is processed carry the same step, one more than the step counter
    had when the epoch began, however many batches the epoch has and however
    it ends: the step counter moves once per epoch (line 64), not once per
    batch. *)
Theorem epoch_logs_share_one_step (fmt : string) (config : Config)
  (world : World) (e : Z) (s : State) :
  let s' := snd (train_epoch fmt config world e s) in
  wandb_step s' = wandb_step s + 1
  /\ Forall (fun st => st = wandb_step s + 1)
       (log_steps (events_since s s'))
  /\ Forall (fun st => st = wandb_step s + 1)
       (flat_map checkpoint_iteration_of (events_since s s')).
Proof.
  intro s'.
  destruct (train_epoch_steps fmt config world e s) as (Hw & es & He & H1 & H2).
  fold s' in Hw, He.
  rewrite (events_since_extended s s' es He).
  repeat split; assumption.
Qed.

Lemma epochs_count_steps (fmt : string) (config : Config) (world : World)
  (es : list Z) (s : State) :
  fst (for_ es (train_epoch fmt config world) s) = Ok tt ->
  wandb_step (snd (for_ es (train_epoch fmt config world) s))
  = wandb_step s + Z.of_nat (List.length es).
Proof.
  revert s; induction es as [|e rest IH]; intro s.
  - intros _. simpl. lia.
  - cbn [for_]. unfold bind.
    pose proof (train_epoch_steps fmt config world e s) as [Hw _].
    destruct (train_epoch fmt config world e s) as [[[]|x] s1];
      [|discriminate].
    intro Hok. rewrite (IH s1 Hok). simpl in Hw. rewrite Hw.
    cbn [List.length]. lia.
Qed.

(** When a run returns, the step counter stands at
    [start_epoch * num_batches - 1] plus the number of epochs of
    [range(start_epoch, epochs)]: it starts from a count of batches and
    then advances by one per epoch. *)
Theorem step_counter_after_run (fmt : string) (config : Config)
  (world : World) (local : bool) :
  let r := train_and_evaluate_with fmt config world local in
  fst r = Ok tt ->
  wandb_step (snd r)
  = start_epoch config * Z.of_nat (num_batches world) - 1
    + Z.of_nat (Z.to_nat (epochs config - start_epoch config)).
Proof.
  intro r. subst r. unfold train_and_evaluate_with, bind.
  assert (Hs : preserves
                 (fun s => wandb_step s
                           = wandb_step (initial_state config world))
                 (startup config local)).
  { unfold_blocks.
    keep_with ltac:(intros ? ?; assumption) ltac:(intros ? ?; assumption). }
  specialize (Hs (initial_state config world) eq_refl).
  destruct (startup config local (initial_state config world))
    as [[[]|x] s0]; [|discriminate].
  simpl in Hs. unfold main_loop. intro Hok.
  rewrite (epochs_count_steps _ _ _ _ _ Hok), Hs, py_range2_length.
  reflexivity.
Qed.

Lemma step_counter_after_run_witness :
  wandb_step
    (snd (train_and_evaluate_with completed_loss_line_format
            (sample_config 2 5 1 1) (sample_world 4) false))
  = 2 * 4 - 1 + 3.
Proof.
  rewrite (step_counter_after_run completed_loss_line_format
             (sample_config 2 5 1 1) (sample_world 4) false).
  - reflexivity.
  - vm_compute. reflexivity.
Defined.

(** ** The learning rate in closed form *)





(** ** The calls of the metrics block *)

Lemma quiet_tagged (e : Event) : quiet e -> tagged_train e.
Proof. intros (_ & _ & H). destruct e; simpl in *; try exact I.
  discriminate. Qed.

Lemma metric_calls_ok_frame (s s' : State) (es : list Event) :
  metric_calls_ok s -> events s' = rev es ++ events s -> Forall quiet es ->
  metric_calls_ok s'.
Proof.
  intros [Ht Hl] Ee Hq.
  pose proof (history_extended _ _ _ Ee) as Hh. split.
  - rewrite Ee. apply Forall_app. split; [|exact Ht].
    apply Forall_rev. eapply Forall_impl; [|exact Hq]. apply quiet_tagged.
  - unfold train_rmse_seen, test_rmse_seen in *.
    rewrite Hh, !flat_map_app, !length_app.
    rewrite (flat_map_nil_on train_rmse_of es),
      (flat_map_nil_on test_rmse_of es);
      try (eapply Forall_impl; [|exact Hq]; intros e He; apply He).
    simpl. lia.
Qed.

Lemma metric_calls_ok_emit (e : Event) :
  quiet e -> preserves metric_calls_ok (emit e).
Proof.
  intros Hq s H. simpl.
  apply (metric_calls_ok_frame s _ [e] H); [reflexivity|].
  constructor; [exact Hq|constructor].
Qed.

Lemma metric_calls_ok_modify (f : State -> State) :
  (forall s, events (f s) = events s) ->
  preserves metric_calls_ok (modify f).
Proof.
  intros Hf s H. simpl.
  apply (metric_calls_ok_frame s _ [] H); [apply Hf|constructor].
Qed.

Ltac keep_calls :=
  keep_with ltac:(apply metric_calls_ok_emit; quiet_event)
            ltac:(apply metric_calls_ok_modify; intro; reflexivity).

Lemma metrics_block_tagged (config : Config) (o : BatchObs) (e : Z) (i : nat)
  (s : State) (avg : Q) :
  Forall tagged_train (metrics_block_events config o e i s avg).
Proof.
  unfold metrics_block_events.
  assert (Hlogs : forall m st tr,
             Forall tagged_train (metrics_log_entries m st tr)).
  { intros m st tr. eapply Forall_impl; [|apply metrics_log_entries_are_logs].
    intros x [k [v ->]]. exact I. }
  pose proof (Hlogs (metrics o) (wandb_step s) true) as H1.
  pose proof (Hlogs (test_metrics o) (wandb_step s) false) as H2.
  set (l1 := metrics_log_entries (metrics o) (wandb_step s) true) in *.
  set (l2 := metrics_log_entries (test_metrics o) (wandb_step s) false) in *.
  clearbody l1 l2.
  repeat (apply Forall_app; split);
    first [ assumption
          | destruct (Qltb _ _); repeat constructor
          | repeat constructor ].
Qed.

Lemma metric_calls_ok_block (fmt : string) (config : Config) (world : World)
  (b : Block) :
  preserves metric_calls_ok (exec_block fmt config world b).
Proof.
  destruct b; simpl.
  - unfold_blocks. keep_calls.
  - unfold_blocks. keep_calls.
  - unfold_blocks. keep_calls.
  - unfold metrics_log. apply preserves_bind; [apply preserves_lift|].
    intro r. destruct (r =? 0); [|apply preserves_ret].
    intros s [Ht Hl]. rewrite metrics_log_block_eq.
    destruct (RunningAverage.read _) as [avg|x]; [|split; assumption].
    set (o := observe world epoch iteration).
    pose proof (history_extended s
                  (metrics_block_state config o epoch iteration s avg)
                  (metrics_block_events config o epoch iteration s avg)
                  eq_refl) as Hh.
    split.
    + unfold metrics_block_state. cbn [snd events].
      apply Forall_app. split; [|exact Ht].
      apply Forall_rev, metrics_block_tagged.
    + cbn [snd]. unfold train_rmse_seen, test_rmse_seen in *.
      rewrite Hh, !flat_map_app, !length_app.
      pose proof (metrics_block_train_rmse config o epoch iteration s avg)
        as E1.
      pose proof (metrics_block_test_rmse config o epoch iteration s avg)
        as E2.
      unfold train_rmse_seen, test_rmse_seen in E1, E2.
      rewrite E1, E2. simpl. lia.
  - unfold_blocks. keep_calls.
Qed.

Lemma count_as_projection {B : Type} (p : Event -> bool)
  (f : Event -> list B) (h : list Event) :
  (forall e, List.length (f e) = if p e then 1%nat else 0%nat) ->
  count_events p h = List.length (flat_map f h).
Proof.
  intro H. unfold count_events.
  induction h as [|e rest IH]; simpl; [reflexivity|].
  rewrite length_app, H. destruct (p e); simpl; rewrite IH; reflexivity.
Qed.

Lemma new_minimum_flags_length (best : Q) (rs : list Q) :
  List.length (new_minimum_flags best rs) = List.length rs.
Proof.
  revert best; induction rs as [|r rest IH]; intro best; simpl;
    [reflexivity|]. rewrite IH. reflexivity.
Qed.

(** At every block boundary of every run: [save_checkpoint] has been called
    exactly once for each evaluation of the training metrics and each
    validation pass, every one of those calls was tagged [train = True] --
    no checkpoint is ever written as a validation checkpoint -- and the
    best-flag is down again. *)
Theorem checkpoint_calls (fmt : string) (config : Config) (world : World)
  (local : bool) (k : nat) :
  let s := state_at fmt config world local k in
  is_best s = false
  /\ Forall tagged_train (history s)
  /\ count_events is_save_checkpoint (history s)
     = count_events is_evaluate_predictions (history s)
  /\ count_events is_evaluate (history s)
     = count_events is_evaluate_predictions (history s).
Proof.
  intro s.
  destruct (trackers_ok_run fmt config world local
              (firstn k (program config world))) as (Hb & _ & _ & Hf).
  assert (Hc : metric_calls_ok s).
  { subst s. unfold state_at. apply run_blocks_invariant.
    - split; [constructor|reflexivity].
    - unfold_blocks. keep_calls.
    - apply metric_calls_ok_block. }
  destruct Hc as [Ht Hl]. fold (state_at fmt config world local k) in Hb, Hf.
  fold s in Hb, Hf.
  split; [exact Hb|]. split; [apply Forall_rev, Ht|].
  rewrite (count_as_projection is_save_checkpoint checkpoint_flag_of),
    (count_as_projection is_evaluate_predictions train_rmse_of),
    (count_as_projection is_evaluate test_rmse_of)
    by (intros []; reflexivity).
  fold (checkpoint_flags (history s)) (train_rmse_seen (history s))
    (test_rmse_seen (history s)).
  rewrite Hf, new_minimum_flags_length. split; [reflexivity|exact Hl].
Qed.

(** ** The two logging helpers *)



(** ** The two intervals *)

Lemma filter_as_flat_map {A : Type} (p : A -> bool) (l : list A) :
  filter p l = flat_map (fun x => if p x then [x] else []) l.
Proof.
  induction l as [|x rest IH]; simpl; [reflexivity|].
  rewrite IH. destruct (p x); reflexivity.
Qed.

Lemma flat_map_map {A B C : Type} (f : A -> B) (g : B -> list C)
  (l : list A) :
  flat_map g (map f l) = flat_map (fun x => g (f x)) l.
Proof. induction l as [|x rest IH]; simpl; congruence. Qed.

Lemma flat_map_flat_map {A B C : Type} (f : A -> list B) (g : B -> list C)
  (l : list A) :
  flat_map g (flat_map f l) = flat_map (fun x => flat_map g (f x)) l.
Proof.
  induction l as [|x rest IH]; simpl; [reflexivity|].
  rewrite flat_map_app, IH. reflexivity.
Qed.

Lemma due_schedule (n : Z) (config : Config) (world : World) :
  filter (due n) (batch_schedule config world)
  = flat_map
      (fun e => flat_map (fun i => if due n (e, i) then [(e, i)] else [])
                  (seq 0 (num_batches world)))
      (py_range2 (start_epoch config) (epochs config)).
Proof.
  unfold batch_schedule. rewrite filter_as_flat_map, flat_map_flat_map.
  apply flat_map_ext. intro e. apply flat_map_map.
Qed.

Lemma metrics_block_progress (config : Config) (o : BatchObs) (e : Z)
  (i : nat) (s : State) (avg : Q) :
  flat_map progress_of (metrics_block_events config o e i s avg) = [(e, i)].
Proof.
  unfold metrics_block_events.
  repeat (rewrite flat_map_app).
  rewrite !metrics_log_entries_project by reflexivity.
  destruct (Qltb (rmse (metrics o)) (best_rmse s));
    destruct (Qltb (rmse (test_metrics o)) (best_test_rmse s)); reflexivity.
Qed.

Lemma metrics_log_contributes (config : Config) (world : World) (e : Z)
  (i : nat) :
  contributes progress_of
    (if due (other_metrics_log_interval config) (e, i) then [(e, i)] else [])
    (metrics_log config world e i).
Proof.
  intro s. unfold metrics_log, bind, lift, py_mod, due. cbn [snd].
  destruct (other_metrics_log_interval config =? 0).
  { match goal with |- exists p q, ?g = _ /\ _ => exists [], g end.
    split; [reflexivity|]. rewrite app_nil_r.
    split; [reflexivity|]. intros a C0. discriminate. }
  destruct (Z.of_nat i mod other_metrics_log_interval config =? 0).
  2:{ exists [], []. split; [reflexivity|]. rewrite app_nil_r.
      split; reflexivity. }
  rewrite metrics_log_block_eq.
  destruct (RunningAverage.read _) as [avg|x].
  - exists [(e, i)], []. split; [reflexivity|]. split; [|reflexivity].
    cbn [snd].
    rewrite (history_extended s
               (metrics_block_state config (observe world e i) e i s avg)
               (metrics_block_events config (observe world e i) e i s avg)
               eq_refl), flat_map_app, metrics_block_progress.
    reflexivity.
  - exists [], [(e, i)]. rewrite app_nil_r. split; [reflexivity|].
    split; [reflexivity|]. intros a C0. discriminate.
Qed.

Lemma projection_add_events_one {B : Type} (f : Event -> list B)
  (e : Event) (s : State) :
  f e = [] ->
  flat_map f (history (add_events [e] s)) = flat_map f (history s) ++ [].
Proof.
  intro H.
  rewrite (history_extended s (add_events [e] s) [e] eq_refl), flat_map_app.
  simpl. rewrite H. reflexivity.
Qed.

Lemma loss_log_contributes (fmt : string) (config : Config) (e : Z)
  (i : nat) :
  contributes loss_line_of
    (if due (training_loss_log_interval config) (e, i) then [(e, i)] else [])
    (loss_log fmt config e i).
Proof.
  intro s. unfold loss_log, bind, lift, py_mod, due. cbn [snd].
  destruct (training_loss_log_interval config =? 0).
  { match goal with |- exists p q, ?g = _ /\ _ => exists [], g end.
    split; [reflexivity|]. rewrite app_nil_r.
    split; [reflexivity|]. intros a C0. discriminate. }
  destruct (Z.of_nat i mod training_loss_log_interval config =? 0).
  2:{ exists [], []. split; [reflexivity|]. rewrite app_nil_r.
      split; reflexivity. }
  rewrite loss_log_block_eq.
  assert (Hraise : forall x,
             exists p q : list (Z * nat),
               [(e, i)] = p ++ q
               /\ flat_map loss_line_of
                    (history (snd (@Raise unit x,
                                   add_events [Print Timestamp] s)))
                  = flat_map loss_line_of (history s) ++ p
               /\ (forall a, fst (@Raise unit x,
                                  add_events [Print Timestamp] s) = Ok a ->
                             q = [])).
  { intro x. exists [], [(e, i)]. split; [reflexivity|]. split.
    - cbn [snd]. apply projection_add_events_one. reflexivity.
    - intros a C0. discriminate. }
  destruct (RunningAverage.read (accumulated_per_pixel_loss s)) as [a|x];
    [|apply Hraise].
  destruct (RunningAverage.read (accumulated_feature_loss s)) as [b|x];
    [|apply Hraise].
  destruct (percent_format fmt 5) as [[]|x]; [|apply Hraise].
  exists [(e, i)], []. split; [reflexivity|]. split; [|reflexivity].
  cbn [snd].
  match goal with
  | |- flat_map _ (history (add_events ?es s)) = _ =>
      rewrite (history_extended s (add_events es s) es eq_refl), flat_map_app
  end.
  reflexivity.
Qed.

Lemma epoch_contributes_progress (fmt : string) (config : Config)
  (world : World) (e : Z) :
  contributes progress_of
    (flat_map
       (fun i => if due (other_metrics_log_interval config) (e, i)
                 then [(e, i)] else [])
       (seq 0 (num_batches world)))
    (train_epoch fmt config world e).
Proof.
  unfold train_epoch.
  apply (contributes_eq progress_of
           ([] ++ flat_map
                    (fun i => if due (other_metrics_log_interval config) (e, i)
                              then [(e, i)] else [])
                    (seq 0 (num_batches world)) ++ []));
    [simpl; rewrite app_nil_r; reflexivity|].
  apply contributes_bind;
    [apply contributes_silent; intro l; unfold_blocks; keep_reading|].
  intros _. apply contributes_bind.
  2:{ intros _. apply contributes_silent; intro l; unfold_blocks;
        keep_reading. }
  apply contributes_for. intro i. unfold iteration_body.
    apply (contributes_eq progress_of
             ([] ++ [] ++ (if due (other_metrics_log_interval config) (e, i)
                           then [(e, i)] else [])));
      [reflexivity|].
    apply contributes_bind;
      [apply contributes_silent; intro l; unfold_blocks; keep_reading|].
    intros _. apply contributes_bind;
      [apply contributes_silent; intro l; unfold_blocks; keep_reading|].
    intros _. apply metrics_log_contributes.
Qed.

Lemma epoch_contributes_loss_lines (fmt : string) (config : Config)
  (world : World) (e : Z) :
  contributes loss_line_of
    (flat_map
       (fun i => if due (training_loss_log_interval config) (e, i)
                 then [(e, i)] else [])
       (seq 0 (num_batches world)))
    (train_epoch fmt config world e).
Proof.
  unfold train_epoch.
  apply (contributes_eq loss_line_of
           ([] ++ flat_map
                    (fun i => if due (training_loss_log_interval config) (e, i)
                              then [(e, i)] else [])
                    (seq 0 (num_batches world)) ++ []));
    [simpl; rewrite app_nil_r; reflexivity|].
  apply contributes_bind;
    [apply contributes_silent; intro l; unfold_blocks; keep_reading|].
  intros _. apply contributes_bind.
  2:{ intros _. apply contributes_silent; intro l; unfold_blocks;
        keep_reading. }
  apply contributes_for. intro i. unfold iteration_body.
    apply (contributes_eq loss_line_of
             ([] ++ (if due (training_loss_log_interval config) (e, i)
                     then [(e, i)] else []) ++ []));
      [simpl; rewrite app_nil_r; reflexivity|].
    apply contributes_bind;
      [apply contributes_silent; intro l; unfold_blocks; keep_reading|].
    intros _. apply contributes_bind; [apply loss_log_contributes|].
    intros _. apply contributes_silent; intro l; unfold_blocks; keep_reading.
Qed.

(** The metrics block runs, and prints its progress line, at the batches
    whose index is a multiple of [other_metrics_log_interval], in the order
    of the loops and at no other batch; the loss line is printed at the
    multiples of [training_loss_log_interval] and at no other batch.  A run
    that stops early has done so for a prefix of those batches, and a run
    that returns for all of them. *)
Theorem blocks_run_at_multiples (fmt : string) (config : Config)
  (world : World) (local : bool) :
  let r := train_and_evaluate_with fmt config world local in
  let metrics_due :=
    filter (due (other_metrics_log_interval config))
      (batch_schedule config world) in
  let loss_due :=
    filter (due (training_loss_log_interval config))
      (batch_schedule config world) in
  (exists rest,
      metrics_due = flat_map progress_of (history (snd r)) ++ rest)
  /\ (exists rest,
         loss_due = flat_map loss_line_of (history (snd r)) ++ rest)
  /\ (fst r = Ok tt ->
      flat_map progress_of (history (snd r)) = metrics_due
      /\ flat_map loss_line_of (history (snd r)) = loss_due).
Proof.
  intros r metrics_due loss_due. subst metrics_due loss_due.
  rewrite !due_schedule.
  destruct (run_contributes progress_of _ fmt config world local
              ltac:(intro l; unfold_blocks; keep_reading)
              (epoch_contributes_progress fmt config world))
    as (p1 & q1 & E1 & H1 & F1).
  destruct (run_contributes loss_line_of _ fmt config world local
              ltac:(intro l; unfold_blocks; keep_reading)
              (epoch_contributes_loss_lines fmt config world))
    as (p2 & q2 & E2 & H2 & F2).
  fold r in H1, F1, H2, F2.
  split; [exists q1; rewrite H1; exact E1|].
  split; [exists q2; rewrite H2; exact E2|].
  intro Hok. rewrite H1, H2, E1, E2, (F1 Hok), (F2 Hok), !app_nil_r.
  split; reflexivity.
Qed.

Lemma blocks_run_at_multiples_witness :
  let r := train_and_evaluate_with completed_loss_line_format
             (sample_config 0 2 2 3) (sample_world 5) false in
  flat_map progress_of (history (snd r))
  = [(0, 0%nat); (0, 3%nat); (1, 0%nat); (1, 3%nat)]
  /\ flat_map loss_line_of (history (snd r))
     = [(0, 0%nat); (0, 2%nat); (0, 4%nat);
        (1, 0%nat); (1, 2%nat); (1, 4%nat)].
Proof.
  intro r.
  destruct (blocks_run_at_multiples completed_loss_line_format
              (sample_config 0 2 2 3) (sample_world 5) false)
    as (_ & _ & H).
  destruct H as [H1 H2]; [vm_compute; reflexivity|].
  fold r in H1, H2. rewrite H1, H2. split; vm_compute; reflexivity.
Defined.

(** ** The run summary *)

Lemma summary_ok_frame (s s' : State) (es : list Event) :
  summary_ok s ->
  best_rmse s' = best_rmse s -> best_test_rmse s' = best_test_rmse s ->
  events s' = rev es ++ events s ->
  flat_map (summary_of "best_train_rmse") es = [] ->
  flat_map (summary_of "best_test_rmse") es = [] ->
  summary_ok s'.
Proof.
  intros [H1 H2] E1 E2 Ee Q1 Q2.
  pose proof (history_extended _ _ _ Ee) as Hh.
  unfold summary_ok, summary_value in *.
  rewrite Hh, !flat_map_app, Q1, Q2, !app_nil_r. split; congruence.
Qed.

Lemma summary_ok_emit (e : Event) :
  summary_of "best_train_rmse" e = [] ->
  summary_of "best_test_rmse" e = [] ->
  preserves summary_ok (emit e).
Proof.
  intros Q1 Q2 s H. simpl.
  apply (summary_ok_frame s _ [e] H); try reflexivity; simpl.
  - rewrite Q1. reflexivity.
  - rewrite Q2. reflexivity.
Qed.

Lemma summary_ok_modify (f : State -> State) :
  (forall s, best_rmse (f s) = best_rmse s
             /\ best_test_rmse (f s) = best_test_rmse s
             /\ events (f s) = events s) ->
  preserves summary_ok (modify f).
Proof.
  intros Hf s H. simpl. destruct (Hf s) as (E1 & E2 & E3).
  apply (summary_ok_frame s _ [] H); auto.
Qed.

Ltac keep_summary :=
  keep_with ltac:(apply summary_ok_emit; reflexivity)
            ltac:(apply summary_ok_modify; intro; repeat split).

Lemma metrics_block_summary_train (config : Config) (o : BatchObs) (e : Z)
  (i : nat) (s : State) (avg : Q) :
  flat_map (summary_of "best_train_rmse")
    (metrics_block_events config o e i s avg)
  = if Qltb (rmse (metrics o)) (best_rmse s) then [rmse (metrics o)] else [].
Proof.
  unfold metrics_block_events.
  repeat (rewrite flat_map_app).
  rewrite !metrics_log_entries_project by reflexivity.
  destruct (Qltb (rmse (metrics o)) (best_rmse s));
    destruct (Qltb (rmse (test_metrics o)) (best_test_rmse s)); reflexivity.
Qed.

Lemma metrics_block_summary_test (config : Config) (o : BatchObs) (e : Z)
  (i : nat) (s : State) (avg : Q) :
  flat_map (summary_of "best_test_rmse")
    (metrics_block_events config o e i s avg)
  = if Qltb (rmse (test_metrics o)) (best_test_rmse s)
    then [rmse (test_metrics o)] else [].
Proof.
  unfold metrics_block_events.
  repeat (rewrite flat_map_app).
  rewrite !metrics_log_entries_project by reflexivity.
  destruct (Qltb (rmse (metrics o)) (best_rmse s));
    destruct (Qltb (rmse (test_metrics o)) (best_test_rmse s)); reflexivity.
Qed.

Lemma summary_ok_block (fmt : string) (config : Config) (world : World)
  (b : Block) :
  preserves summary_ok (exec_block fmt config world b).
Proof.
  destruct b; simpl.
  - unfold_blocks. keep_summary.
  - unfold_blocks. keep_summary.
  - unfold_blocks. keep_summary.
  - unfold metrics_log. apply preserves_bind; [apply preserves_lift|].
    intro r. destruct (r =? 0); [|apply preserves_ret].
    intros s [H1 H2]. rewrite metrics_log_block_eq.
    destruct (RunningAverage.read _) as [avg|x]; [|split; assumption].
    set (o := observe world epoch iteration).
    pose proof (history_extended s
                  (metrics_block_state config o epoch iteration s avg)
                  (metrics_block_events config o epoch iteration s avg)
                  eq_refl) as Hh.
    unfold summary_ok, summary_value in *. cbn [snd]. rewrite Hh.
    rewrite !flat_map_app, metrics_block_summary_train,
      metrics_block_summary_test.
    unfold metrics_block_state. cbn [best_rmse best_test_rmse].
    split.
    + destruct (Qltb (rmse (metrics o)) (best_rmse s)).
      * rewrite last_last. reflexivity.
      * rewrite app_nil_r. exact H1.
    + destruct (Qltb (rmse (test_metrics o)) (best_test_rmse s)).
      * rewrite last_last. reflexivity.
      * rewrite app_nil_r. exact H2.
  - unfold_blocks. keep_summary.
Qed.

(** At every block boundary of every run, [best_rmse] is the value last
    written to the run summary under ["best_train_rmse"], and
    [best_test_rmse] the value last written under ["best_test_rmse"];
    while nothing has been written under a key, its tracker is still the
    sentinel. *)
Theorem summary_mirrors_trackers (fmt : string) (config : Config)
  (world : World) (local : bool) (k : nat) :
  let s := state_at fmt config world local k in
  best_rmse s = summary_value "best_train_rmse" (history s)
  /\ best_test_rmse s = summary_value "best_test_rmse" (history s).
Proof.
  intro s. subst s. unfold state_at.
  apply (run_blocks_invariant summary_ok).
  - split; reflexivity.
  - unfold_blocks. keep_summary.
  - apply summary_ok_block.
Qed.
